(** * kidsopencode: the streaming event layer of the web client

    A shallow embedding of the browser client's event handling
    ([static/js/events.js], [static/js/app.js], [static/js/components.js]
    and the API client) and the properties of it that the specification
    states.

    Conventions of the embedding.
    - JavaScript values that the code inspects dynamically (truthiness,
      [typeof], string conversion) are elements of [JS.value].  Numbers
      are kept abstract: the host supplies their truthiness and their
      rendering ([JS.Numbers]); [JSON.stringify(v, null, 2)] is the
      host's as well ([JS.Json]).
    - The objects the code mutates ([EventStream], [App], DOM elements)
      are records; every method is a function from the state before the
      call to the state after it.  DOM nodes that are reached through a
      stored reference carry a node number, allocated at creation.
    - An [async] method is a [task]: the code up to the next [await],
      the request awaited, and the continuation run on its outcome. *)

From Stdlib Require Import String Ascii List ZArith Lia Bool.
From stdpp Require Import base option list gmap strings pretty.

Set Warnings "-register-all".

(** ** JavaScript values *)

Module JS.

(** The host's numbers: IEEE doubles in a browser.  Only [ToBoolean] and
    [ToString] of a number are ever used by the code modelled here. *)
Class Numbers := {
  number : Type;
  number_ToBoolean : number -> bool;
  number_ToString : number -> string
}.

Section Values.
Context `{Numbers}.

Inductive value : Type :=
| Undefined
| Null
| Bool (b : bool)
| Num (n : number)
| Str (s : string)
| Arr (items : list value)
| Obj (fields : list (string * value)).

(** [ToBoolean]: what [if (v)], [v || d] and [v && w] test. *)
Definition truthy (v : value) : bool :=
  match v with
  | Undefined | Null => false
  | Bool b => b
  | Num n => number_ToBoolean n
  | Str s => negb (String.eqb s "")
  | Arr _ | Obj _ => true
  end.

(** [a || b] *)
Definition or_else (a b : value) : value := if truthy a then a else b.

(** [typeof v] *)
Definition typeof (v : value) : string :=
  match v with
  | Undefined => "undefined"
  | Null => "object"
  | Bool _ => "boolean"
  | Num _ => "number"
  | Str _ => "string"
  | Arr _ | Obj _ => "object"
  end.

(** [v == null] *)
Definition nullish (v : value) : bool :=
  match v with Undefined | Null => true | _ => false end.


(** [items.join(sep)] on already converted items. *)
Fixpoint join (sep : string) (items : list string) : string :=
  match items with
  | [] => ""
  | [s] => s
  | s :: rest => s +:+ sep +:+ join sep rest
  end.

(** [String(v)]: arrays join their elements with a comma, a nullish
    element contributing the empty string; a plain object prints as
    [[object Object]]. *)
Fixpoint ToString (v : value) : string :=
  match v with
  | Undefined => "undefined"
  | Null => "null"
  | Bool true => "true"
  | Bool false => "false"
  | Num n => number_ToString n
  | Str s => s
  | Arr items =>
      join "," (List.map (fun x => if nullish x then "" else ToString x) items)
  | Obj _ => "[object Object]"
  end.

Fixpoint assoc (k : string) (fields : list (string * value)) : option value :=
  match fields with
  | [] => None
  | (k', v) :: rest => if String.eqb k k' then Some v else assoc k rest
  end.

(** [o[k]] (also [o.k]) for [o] that is not nullish: a key that is not
    there reads as [undefined].  The model reads [undefined] for every
    key of a value that is not a plain object (where the code asks for
    the [length] of an array or a string, the model says so), and
    leaves inherited properties (the keys of [Object.prototype]) out. *)
Definition get (k : string) (o : value) : value :=
  match o with
  | Obj fields => default Undefined (assoc k fields)
  | _ => Undefined
  end.

(** [o?.k] *)
Definition get_opt (k : string) (o : value) : value :=
  if nullish o then Undefined else get k o.

(** [Object.keys(o).length] for [o] that is not nullish. *)
Definition keys_length (o : value) : nat :=
  match o with
  | Obj fields => length fields
  | Arr items => length items
  | Str s => String.length s
  | _ => 0
  end.

(** [s.startsWith(t)] *)
Fixpoint startsWith (t s : string) : bool :=
  match t with
  | EmptyString => true
  | String a t' =>
      match s with
      | EmptyString => false
      | String b s' => Ascii.eqb a b && startsWith t' s'
      end
  end.

(** [s.includes(t)] *)
Fixpoint includes (t s : string) : bool :=
  startsWith t s ||
  match s with
  | EmptyString => false
  | String _ s' => includes t s'
  end.

(** [s.replace(/c/g, by)] for a one-character pattern [c] and a
    replacement [by] without [$]. *)
Fixpoint replaceAll (c : ascii) (by_ : string) (s : string) : string :=
  match s with
  | EmptyString => EmptyString
  | String a s' =>
      if Ascii.eqb a c then by_ +:+ replaceAll c by_ s'
      else String a (replaceAll c by_ s')
  end.

End Values.

(** What the model takes from the JavaScript engine as given:
    [JSON.stringify(v, null, 2)] on the values that reach it here (none
    is [undefined], so it returns a string), and the regular-expression
    scan of a sub-agent's output text (the body of
    [EventStream.parseTaskOutput] after its first test), whose result
    object the model does not look into. *)
Class Json `{Numbers} := {
  JSON_stringify : value -> string;
  scanTaskOutput : string -> value
}.

End JS.

Import JS.

(** ** components.js: [escapeHtml] *)

Definition quot : ascii := "034"%char.
Definition apos : ascii := "039"%char.

Section EscapeHtml.
Context `{Json}.

(** [escapeHtml(unsafe)], components.js.  The [try] around
    [JSON.stringify] guards against cyclic objects, which no value
    decoded from an event is. *)
Definition escapeHtml (unsafe : value) : string :=
  if nullish unsafe then "" else
  let unsafe1 : value :=
    if String.eqb (typeof unsafe) "object"
    then Str (JSON_stringify unsafe) else unsafe in
  let unsafe2 : string :=
    match unsafe1 with
    | Str s => s
    | v => ToString v
    end in
  replaceAll apos "&#039;"
    (replaceAll quot "&quot;"
      (replaceAll ">" "&gt;"
        (replaceAll "<" "&lt;"
          (replaceAll "&" "&amp;" unsafe2)))).

(** The text that [escapeHtml(unsafe)] escapes, which is what the
    element shows. *)
Definition shown_text (unsafe : value) : string :=
  if nullish unsafe then ""
  else if String.eqb (typeof unsafe) "object" then JSON_stringify unsafe
  else ToString unsafe.

End EscapeHtml.

(** What a browser's HTML parser needs of text placed between tags or
    inside a double- or single-quoted attribute: no markup character,
    and every ampersand the start of one of the five references that
    [escapeHtml] writes. *)
Definition markup_char (a : ascii) : bool :=
  Ascii.eqb a "<" || Ascii.eqb a ">" || Ascii.eqb a quot || Ascii.eqb a apos.

Definition entity_tail (s : string) : bool :=
  startsWith "amp;" s || startsWith "lt;" s || startsWith "gt;" s
  || startsWith "quot;" s || startsWith "#039;" s.

Fixpoint inert (s : string) : bool :=
  match s with
  | EmptyString => true
  | String a s' =>
      negb (markup_char a)
      && (if Ascii.eqb a "&" then entity_tail s' else true)
      && inert s'
  end.

Fixpoint occurs (c : ascii) (s : string) : bool :=
  match s with
  | EmptyString => false
  | String a s' => Ascii.eqb a c || occurs c s'
  end.

(** ** components.js: the elements of an assistant message

    An assistant message ([createAssistantMessage]) is a bubble whose
    [.message-content] container receives the parts of the reply.  The
    model keeps the container's children, in document order, with the
    attributes and the content that the handlers write; text that a
    handler only writes once (element ids, fixed labels, class names that
    never change) is left out.  Markdown rendered into [.message-text] is
    kept as its source and taken to contain no element that the
    handlers' selectors match. *)

Module ToolData.
Section ToolData.
Context `{Numbers}.
(** The [toolData] object built by [EventStream.handleToolUpdate]. *)
Record t := {
  id : string;
  tool : value;
  status : value;
  input : value;
  output : value;
  title : value;
  error : value;
  category : value
}.
End ToolData.
End ToolData.

Module SubagentData.
Section SubagentData.
Context `{Numbers}.
(** The [subagentData] object built by [EventStream.handleSubagentEvent]. *)
Record t := {
  id : string;
  tool : value;
  status : value;
  subagentType : value;
  description : value;
  prompt : value;
  output : value;
  title : value;
  error : value;
  parsed : value;
  toolSummary : value
}.
End SubagentData.
End SubagentData.

Section Elements.
Context `{Json}.

(** The children of a tool element's [.tool-details]. *)
Inductive detail : Type :=
| tool_input (pre : string)
    (* class tool-input: label, then <pre> with this escaped text *)
| tool_output (pre : string) (truncated : bool)
    (* class tool-output: label, <pre> with the escaped text and, when
       the output is longer than 2000 characters, the truncation note *)
| tool_error (text : string)
    (* class tool-error: label and the escaped error *)
| placeholder (text : string).
    (* the line of class italic shown while there is nothing else *)

(** A [.tool-result] element. *)
Record toolEl := {
  dataset_toolId : option string;
  dataset_tool : string;
  dataset_status : string;
  dataset_category : option string;
  className_status : string;
  header_statusIcon : string;
  header_toolIcon : string;
  header_title : string;
  content_hidden : bool;
  details : list detail
}.

(** A [.subagent-panel] element.  [node] is the identity of the DOM
    node (two panels may carry one [id] attribute); [content] is the
    [subagentData] that [renderSubagentContent] last rendered into the
    element of id [id ++ "-content"]. *)
Record panelEl := {
  node : nat;
  panel_id : string;
  dataset_subagentId : string;
  panel_status : string;          (* dataset.status *)
  panel_style : string;           (* the status whose border/background classes are set *)
  panel_running : bool;           (* class subagent-running *)
  panel_icon : string;
  panel_icon_spin : bool;         (* class animate-spin-slow on the icon *)
  panel_content : SubagentData.t;
  panel_content_hidden : bool;
  panel_arrow_rotated : bool      (* class rotate-90 on .collapsible-icon *)
}.

Inductive child : Type :=
| message_text (markdown : string)        (* .message-text *)
| thinking_section (text : string)
    (* .thinking-section, with the text its .thinking-content shows *)
| tool_result (el : toolEl)
| subagent_panel (el : panelEl)
| questionnaire (data : value) (questions : value)
    (* the form for [data]; its submit handler passes the answers and
       [questions] to [App.submitQuestionnaire] *)
| streaming_indicator.

End Elements.

Section Components.
Context `{Json}.

(** [v === 'lit'] *)
Definition is_str (lit : string) (v : value) : bool :=
  match v with
  | Str s => String.eqb s lit
  | _ => false
  end.

Definition lower (a : ascii) : ascii :=
  let n := nat_of_ascii a in
  if (65 <=? n)%nat && (n <=? 90)%nat then ascii_of_nat (n + 32) else a.

(** [s.toLowerCase()], on the ASCII letters. *)
Fixpoint toLowerCase (s : string) : string :=
  match s with
  | EmptyString => EmptyString
  | String a s' => String (lower a) (toLowerCase s')
  end.

(** The object literal [{pending: .., running: .., completed: ..,
    failed: ..}[status] || other] of [addToolResult] and
    [updateToolStatus]. *)
Definition statusIcon (status : value) : string :=
  let k := ToString status in
  if String.eqb k "pending" then "⏳"
  else if String.eqb k "running" then "⚙️"
  else if String.eqb k "completed" then "✅"
  else if String.eqb k "failed" then "❌"
  else "🔧".

(** [getToolIcon(toolName)]; [None] is the [TypeError] of
    [toolName?.toLowerCase()] on a value that has no such method. *)
Definition getToolIcon (toolName : value) : option string :=
  let icons (k : string) : string :=
    if String.eqb k "bash" then "💻"
    else if String.eqb k "read" then "📖"
    else if String.eqb k "write" then "📝"
    else if String.eqb k "edit" then "✏️"
    else if String.eqb k "grep" then "🔍"
    else if String.eqb k "glob" then "📂"
    else if String.eqb k "task" then "📦"
    else "🔧" in
  match toolName with
  | Undefined | Null => Some "🔧"
  | Str name => Some (icons (toLowerCase name))
  | _ => None
  end.

(** [input && Object.keys(input).length > 0] *)
Definition has_keys (input : value) : bool :=
  truthy input && (0 <? keys_length input)%nat.

Definition input_details (input : value) : detail :=
  tool_input (escapeHtml (Str (JSON_stringify input))).

Definition output_details (output : value) : detail :=
  tool_output (escapeHtml (Str (String.substring 0 2000 (ToString output))))
              (2000 <? String.length (ToString output))%nat.

Definition error_details (error : value) : detail :=
  tool_error (escapeHtml error).

(** The element that [addToolResult(messageEl, toolData)] builds
    before it appends it to the container. *)
Definition toolResultElement (toolData : ToolData.t) : option toolEl :=
  let tool := ToolData.tool toolData in
  let status := ToolData.status toolData in
  let input := ToolData.input toolData in
  let output := ToolData.output toolData in
  let title := ToolData.title toolData in
  let error := ToolData.error toolData in
  let category := ToolData.category toolData in
  let hasContent := has_keys input || truthy output || truthy error in
  let detailsContent :=
    (if has_keys input then [input_details input] else [])
    ++ (if truthy output then [output_details output] else [])
    ++ (if truthy error then [error_details error] else [])
    ++ (if hasContent then []
        else if is_str "pending" status then [placeholder "⏳ 等待执行..."]
        else if is_str "running" status then [placeholder "⚙️ 正在执行中..."]
        else [placeholder "暂无详细信息"]) in
  toolIcon ← getToolIcon tool;
  Some {|
    dataset_toolId := None;
    dataset_tool := ToString tool;
    dataset_status := ToString status;
    dataset_category :=
      if truthy category then Some (ToString category) else None;
    className_status := ToString status;
    header_statusIcon := statusIcon status;
    header_toolIcon := toolIcon;
    header_title := escapeHtml (or_else title (Str (ToString tool)));
    content_hidden := negb (is_str "running" status);
    details := detailsContent
  |}.

Definition is_tool_input (d : detail) : bool :=
  match d with tool_input _ => true | _ => false end.
Definition is_tool_output (d : detail) : bool :=
  match d with tool_output _ _ => true | _ => false end.
Definition is_tool_error (d : detail) : bool :=
  match d with tool_error _ => true | _ => false end.
Definition is_placeholder (d : detail) : bool :=
  match d with placeholder _ => true | _ => false end.

(** [querySelector(sel)] then an assignment to the [innerHTML] of
    the element found: the first child that [sel] matches is rewritten. *)
Fixpoint replace_first {A} (sel : A -> bool) (new : A) (l : list A) : list A :=
  match l with
  | [] => []
  | x :: rest => if sel x then new :: rest else x :: replace_first sel new rest
  end.

(** [querySelector(sel)] then [remove()] *)
Fixpoint remove_first {A} (sel : A -> bool) (l : list A) : list A :=
  match l with
  | [] => []
  | x :: rest => if sel x then rest else x :: remove_first sel rest
  end.

(** [updateToolStatus(toolEl, status, output, input, error)] on an
    element built by [addToolResult] (which has its [.tool-details]). *)
Definition updateToolStatus (el : toolEl) (status output input error : value)
  : toolEl :=
  let detailsDiv := details el in
  let detailsDiv :=
    if has_keys input then
      if existsb is_tool_input detailsDiv
      then replace_first is_tool_input (input_details input) detailsDiv
      else input_details input :: detailsDiv
    else detailsDiv in
  let detailsDiv :=
    if truthy output then
      if existsb is_tool_output detailsDiv
      then replace_first is_tool_output (output_details output) detailsDiv
      else detailsDiv ++ [output_details output]
    else detailsDiv in
  let detailsDiv :=
    if truthy error then
      if existsb is_tool_error detailsDiv
      then replace_first is_tool_error (error_details error) detailsDiv
      else detailsDiv ++ [error_details error]
    else detailsDiv in
  let detailsDiv :=
    if truthy input || truthy output || truthy error
    then remove_first is_placeholder detailsDiv
    else detailsDiv in
  {|
    dataset_toolId := dataset_toolId el;
    dataset_tool := dataset_tool el;
    dataset_status := ToString status;
    dataset_category := dataset_category el;
    className_status := ToString status;
    header_statusIcon := statusIcon status;
    header_toolIcon := header_toolIcon el;
    header_title := header_title el;
    content_hidden := content_hidden el;
    details := detailsDiv
  |}.

Definition is_message_text (c : child) : bool :=
  match c with message_text _ => true | _ => false end.
Definition is_thinking_section (c : child) : bool :=
  match c with thinking_section _ => true | _ => false end.
Definition is_streaming_indicator (c : child) : bool :=
  match c with streaming_indicator => true | _ => false end.

(** [renderAndHighlight]'s coercion of what it is given to the markdown
    source it renders. *)
Definition markdown_source (markdown : value) : string :=
  if nullish markdown then ""
  else if String.eqb (typeof markdown) "object" then JSON_stringify markdown
  else ToString markdown.

(** [appendTextToMessage(messageEl, text)] on the container of a
    message: the [.message-text] element is created on first use and its
    content is rendered anew from [text]. *)
Definition appendTextToMessage (container : list child) (text : value)
  : list child :=
  if existsb is_message_text container
  then replace_first is_message_text (message_text (markdown_source text))
         container
  else container ++ [message_text (markdown_source text)].

(** [addThinkingSection(messageEl, text)] *)
Definition addThinkingSection (container : list child) (text : value)
  : list child :=
  if negb (truthy text) then container
  else if existsb is_thinking_section container
  then replace_first is_thinking_section
         (thinking_section (ToString text)) container
  else thinking_section (shown_text text) :: container.

(** [removeStreamingIndicator(messageEl)] *)
Definition removeStreamingIndicator (container : list child) : list child :=
  remove_first is_streaming_indicator container.

(** [addStreamingIndicator(messageEl)] *)
Definition addStreamingIndicator (container : list child) : list child :=
  removeStreamingIndicator container ++ [streaming_indicator].

(** [moveStreamingIndicatorToBottom(messageEl)] *)
Definition moveStreamingIndicatorToBottom (container : list child)
  : list child :=
  if existsb is_streaming_indicator container
  then remove_first is_streaming_indicator container ++ [streaming_indicator]
  else container.

(** [addMessageFooter(messageEl, data)]: the token footer is switched
    off in the source; what remains is the removal of the indicator. *)
Definition addMessageFooter (container : list child) : list child :=
  removeStreamingIndicator container.

(** [addQuestionnaireToMessage(messageEl, data, onSubmit)], where
    [onSubmit] is [answers => this.submitQuestionnaire(answers, questions)]. *)
Definition addQuestionnaireToMessage (container : list child)
    (data questions : value) : list child :=
  if negb (truthy data) then container
  else container ++ [questionnaire data questions].

End Components.

(** ** components.js: sub-agent panels and the document *)

Section Document.
Context `{Json}.

(** An assistant bubble: the identity of the node and the children of
    its [.message-content]. *)
Record messageEl := {
  message_node : nat;
  container : list child
}.

(** The children of the chat container. *)
Inductive bubble : Type :=
| user_message (text : string) (attachments : list string)
| assistant_message (el : messageEl).

Definition document := list bubble.

(** The key of [statusConfig] that styles a panel:
    [statusConfig[status] || statusConfig.pending]. *)
Definition statusStyle (status : value) : string :=
  let k := ToString status in
  if String.eqb k "pending" || String.eqb k "running"
     || String.eqb k "completed" || String.eqb k "failed"
  then k else "pending".

Definition styleIcon (style : string) : string :=
  if String.eqb style "running" then "🔄"
  else if String.eqb style "completed" then "✅"
  else if String.eqb style "failed" then "❌"
  else "⏳".

(** [createSubagentPanel(subagentData)]; [fresh] is what
    [getUniqueId('subagent')] returns and [n] the new node. *)
Definition createSubagentPanel (fresh : string) (n : nat)
    (subagentData : SubagentData.t) : panelEl :=
  let id := SubagentData.id subagentData in
  let status := SubagentData.status subagentData in
  let panelId := if String.eqb id "" then fresh else id in
  let config := statusStyle status in
  {|
    node := n;
    panel_id := panelId;
    dataset_subagentId := panelId;
    panel_status := ToString status;
    panel_style := config;
    panel_running := String.eqb config "running";
    panel_icon := styleIcon config;
    panel_icon_spin := String.eqb config "running";
    panel_content := subagentData;
    panel_content_hidden := true;
    panel_arrow_rotated := false
  |}.

(** [addSubagentToMessage(messageEl, subagentData)] on the container. *)
Definition addSubagentToMessage (fresh : string) (n : nat)
    (container : list child) (subagentData : SubagentData.t) : list child :=
  container ++ [subagent_panel (createSubagentPanel fresh n subagentData)].

Definition child_panels (c : child) : list panelEl :=
  match c with
  | subagent_panel el => [el]
  | _ => []
  end.

Definition bubble_panels (b : bubble) : list panelEl :=
  match b with
  | assistant_message el => flat_map child_panels (container el)
  | user_message _ _ => []
  end.

(** The panels of the document, in document order. *)
Definition panels (doc : document) : list panelEl :=
  flat_map bubble_panels doc.

(** The panel that a stored reference denotes. *)
Definition panel_at (n : nat) (doc : document) : option panelEl :=
  List.find (fun el => Nat.eqb (node el) n) (panels doc).

(** [document.getElementById(id + '-content')]: the content element of
    the first panel of that id in the document.  Ids of other elements
    are taken not to end up equal to a panel's content id. *)
Definition content_owner (id : string) (doc : document) : option panelEl :=
  List.find (fun el => String.eqb (panel_id el) id) (panels doc).

Definition on_child_panel (n : nat) (f : panelEl -> panelEl) (c : child)
  : child :=
  match c with
  | subagent_panel el =>
      if Nat.eqb (node el) n then subagent_panel (f el) else c
  | _ => c
  end.

Definition on_bubble_panel (n : nat) (f : panelEl -> panelEl) (b : bubble)
  : bubble :=
  match b with
  | assistant_message el =>
      assistant_message
        {| message_node := message_node el;
           container := List.map (on_child_panel n f) (container el) |}
  | user_message _ _ => b
  end.

(** A write through a reference to panel node [n]. *)
Definition on_panel (n : nat) (f : panelEl -> panelEl) (doc : document)
  : document :=
  List.map (on_bubble_panel n f) doc.

Definition restyle (status : value) (el : panelEl) : panelEl :=
  let config := statusStyle status in
  {|
    node := node el;
    panel_id := panel_id el;
    dataset_subagentId := dataset_subagentId el;
    panel_status := ToString status;
    panel_style := config;
    panel_running := String.eqb config "running";
    panel_icon :=
      (let k := ToString status in
       if String.eqb k "pending" then "⏳"
       else if String.eqb k "running" then "🔄"
       else if String.eqb k "completed" then "✅"
       else if String.eqb k "failed" then "❌"
       else "📦");
    panel_icon_spin := is_str "running" status;
    panel_content := panel_content el;
    panel_content_hidden := panel_content_hidden el;
    panel_arrow_rotated := panel_arrow_rotated el
  |}.

Definition set_content (data : SubagentData.t) (el : panelEl) : panelEl :=
  {|
    node := node el;
    panel_id := panel_id el;
    dataset_subagentId := dataset_subagentId el;
    panel_status := panel_status el;
    panel_style := panel_style el;
    panel_running := panel_running el;
    panel_icon := panel_icon el;
    panel_icon_spin := panel_icon_spin el;
    panel_content := data;
    panel_content_hidden := panel_content_hidden el;
    panel_arrow_rotated := panel_arrow_rotated el
  |}.

Definition show_content (el : panelEl) : panelEl :=
  {|
    node := node el;
    panel_id := panel_id el;
    dataset_subagentId := dataset_subagentId el;
    panel_status := panel_status el;
    panel_style := panel_style el;
    panel_running := panel_running el;
    panel_icon := panel_icon el;
    panel_icon_spin := panel_icon_spin el;
    panel_content := panel_content el;
    panel_content_hidden := false;
    panel_arrow_rotated := panel_arrow_rotated el
  |}.

Definition rotate_arrow (el : panelEl) : panelEl :=
  {|
    node := node el;
    panel_id := panel_id el;
    dataset_subagentId := dataset_subagentId el;
    panel_status := panel_status el;
    panel_style := panel_style el;
    panel_running := panel_running el;
    panel_icon := panel_icon el;
    panel_icon_spin := panel_icon_spin el;
    panel_content := panel_content el;
    panel_content_hidden := panel_content_hidden el;
    panel_arrow_rotated := true
  |}.

(** [updateSubagentPanel(panelEl, subagentData)], [panelEl] being the
    node [n].  The status, classes and icon of the panel itself are
    rewritten; the content is re-rendered in the element that
    [getElementById] finds for the panel's content id, and that element
    is opened on a terminal status. *)
Definition updateSubagentPanel (n : nat) (subagentData : SubagentData.t)
    (doc : document) : document :=
  let status := SubagentData.status subagentData in
  match panel_at n doc with
  | None => doc
  | Some panelEl =>
      let doc := on_panel n (restyle status) doc in
      match content_owner (panel_id panelEl) doc with
      | None => doc
      | Some contentEl =>
          let doc := on_panel (node contentEl) (set_content subagentData) doc in
          if (is_str "completed" status || is_str "failed" status)
             && panel_content_hidden contentEl
          then on_panel n rotate_arrow
                 (on_panel (node contentEl) show_content doc)
          else doc
      end
  end.

End Document.

(** ** events.js: [EventStream] *)

(** The calls [onEvent(eventType, data)] that an [EventStream] makes:
    one constructor for each event type, with the data passed. *)
Inductive streamEvent `{Numbers} : Type :=
| connected_ (* 'connected' *)
| server_connected (data : value)
| text_delta (delta : value)
| reasoning (text : value)
| tool_pending (data : ToolData.t)
| tool_running (data : ToolData.t)
| tool_completed (data : ToolData.t)
| tool_failed (data : ToolData.t)
| tool_update (data : ToolData.t)
| subagent_pending (data : SubagentData.t)
| subagent_running (data : SubagentData.t)
| subagent_completed (data : SubagentData.t)
| subagent_failed (data : SubagentData.t)
| subagent_update (data : SubagentData.t)
| step_start
| step_finish (reason tokens : value)
| message_tool_calls (tokens : value)
| message_complete (finish tokens cost : value)
| file_edited (data : value)
| session_status (data : value)
| session_error (data : value)
| session_idle (data : value)
| error_ (data : value) (* 'error' *)
| question_asked (data : value).

Module EventStream.
Section EventStream.
Context `{Json}.

(** The fields of an [EventStream] object; [eventSource] tells whether
    the object holds an [EventSource] (or [null]).  The [onEvent]
    callback is the application's: the methods below return the call
    they make to it. *)
Record t := {
  directory : string;
  eventSource : bool;
  connected : bool;
  activeSubagents : gmap string SubagentData.t
}.

(** [new EventStream(directory, onEvent)] *)
Definition new (directory : string) : t :=
  {| directory := directory; eventSource := false; connected := false;
     activeSubagents := ∅ |}.

(** [disconnect()] *)
Definition disconnect (this : t) : t :=
  if eventSource this then
    {| directory := directory this; eventSource := false; connected := false;
       activeSubagents := ∅ |}
  else this.

(** [connect()], the [EventSource] constructor succeeding. *)
Definition connect (this : t) : t :=
  let this := if eventSource this then disconnect this else this in
  {| directory := directory this; eventSource := true;
     connected := connected this; activeSubagents := activeSubagents this |}.

(** [eventSource.onopen] *)
Definition onopen (this : t) : t * option streamEvent :=
  ({| directory := directory this; eventSource := eventSource this;
      connected := true; activeSubagents := activeSubagents this |},
   Some connected_).

(** [eventSource.onerror] *)
Definition onerror (this : t) : t * option streamEvent :=
  ({| directory := directory this; eventSource := eventSource this;
      connected := false; activeSubagents := activeSubagents this |},
   Some (error_ (Obj [("error", Str "Connection error")]))).

Definition with_activeSubagents (m : gmap string SubagentData.t) (this : t) : t :=
  {| directory := directory this; eventSource := eventSource this;
     connected := connected this; activeSubagents := m |}.

(** Identifiers are strings on the wire (§6 of the specification): an
    id is read as the string it is, and as absent when it is anything
    else. *)
Definition id_string (v : value) : string :=
  match v with
  | Str s => s
  | _ => ""
  end.

(** [parseTaskOutput(output)]; [None] is the [TypeError] of
    [output.trim()] on a truthy value that is not a string. *)
Definition parseTaskOutput (output : value) : option value :=
  if negb (truthy output) then
    Some (Obj [("tools", Arr []); ("files", Arr []); ("summary", Str "")])
  else
    match output with
    | Str s => Some (scanTaskOutput s)
    | _ => None
    end.

(** [getToolCategory(toolName)]; [None] is the [TypeError] of
    [toolName?.toLowerCase()] on a value that has no such method. *)
Definition getToolCategory (toolName : value) : option value :=
  let categories (k : string) : string :=
    if String.eqb k "bash" then "execution"
    else if String.eqb k "read" || String.eqb k "write" || String.eqb k "edit"
    then "file"
    else if String.eqb k "grep" || String.eqb k "glob" then "search"
    else if String.eqb k "task" then "subagent"
    else "other" in
  match toolName with
  | Undefined | Null => Some (Str "other")
  | Str name => Some (Str (categories (toLowerCase name)))
  | _ => None
  end.

(** [handleSubagentEvent(part, fullEvent)] *)
Definition handleSubagentEvent (now : nat) (part fullEvent : value) (this : t)
  : t * option streamEvent :=
  let state := or_else (get "state" part) (Obj []) in
  let status := get "status" state in
  let input := or_else (get "input" state) (Obj []) in
  let partId :=
    if String.eqb (id_string (get "id" part)) ""
    then "subagent-" +:+ pretty now
    else id_string (get "id" part) in
  match parseTaskOutput (get "output" state) with
  | None => (this, None)
  | Some summary =>
      let subagentData := {|
        SubagentData.id := partId;
        SubagentData.tool := Str "task";
        SubagentData.status := status;
        SubagentData.subagentType :=
          or_else (get "_subagent_type" fullEvent)
            (or_else (get "subagent_type" input) (Str "general"));
        SubagentData.description :=
          or_else (get "_subagent_description" fullEvent)
            (or_else (get "description" input) (Str ""));
        SubagentData.prompt := or_else (get "prompt" input) (Str "");
        SubagentData.output := or_else (get "output" state) (Str "");
        SubagentData.title := or_else (get "title" state) (Str "");
        SubagentData.error := or_else (get "error" state) Null;
        SubagentData.parsed := or_else (get "_subagent_parsed" fullEvent) Null;
        SubagentData.toolSummary := summary
      |} in
      let tracked := <[partId := subagentData]> (activeSubagents this) in
      if is_str "pending" status then
        (with_activeSubagents tracked this, Some (subagent_pending subagentData))
      else if is_str "running" status then
        (with_activeSubagents tracked this, Some (subagent_running subagentData))
      else if is_str "completed" status then
        (with_activeSubagents (delete partId tracked) this,
         Some (subagent_completed subagentData))
      else if is_str "failed" status then
        (with_activeSubagents (delete partId tracked) this,
         Some (subagent_failed subagentData))
      else
        (with_activeSubagents tracked this, Some (subagent_update subagentData))
  end.

(** [handleToolUpdate(part, fullEvent)] *)
Definition handleToolUpdate (now : nat) (part fullEvent : value) (this : t)
  : t * option streamEvent :=
  let tool := get "tool" part in
  let state := or_else (get "state" part) (Obj []) in
  let status := get "status" state in
  let category :=
    if truthy (get "_tool_category" fullEvent)
    then Some (get "_tool_category" fullEvent)
    else getToolCategory tool in
  match category with
  | None => (this, None)
  | Some category =>
      let toolData := {|
        ToolData.id :=
          (if String.eqb (id_string (get "id" part)) ""
           then "tool-" +:+ pretty now
           else id_string (get "id" part));
        ToolData.tool := tool;
        ToolData.status := status;
        ToolData.input := get "input" state;
        ToolData.output := get "output" state;
        ToolData.title := get "title" state;
        ToolData.error := get "error" state;
        ToolData.category := category
      |} in
      (this,
       Some (if is_str "pending" status then tool_pending toolData
             else if is_str "running" status then tool_running toolData
             else if is_str "completed" status then tool_completed toolData
             else if is_str "failed" status then tool_failed toolData
             else tool_update toolData))
  end.

(** [handlePartUpdated(properties, fullEvent)].  Destructuring a
    nullish [properties] raises a [TypeError], which [onmessage]
    catches: nothing is emitted. *)
Definition handlePartUpdated (now : nat) (properties fullEvent : value)
    (this : t) : t * option streamEvent :=
  if nullish properties then (this, None) else
  let part := get "part" properties in
  let delta := get "delta" properties in
  let partType := get_opt "type" part in
  if negb (truthy partType) then (this, None)
  else if is_str "text" partType then
    (this, if truthy delta then Some (text_delta delta) else None)
  else if is_str "reasoning" partType then
    (this, Some (reasoning (or_else (get "text" part) (Str ""))))
  else if is_str "tool" partType then
    if truthy (get "_is_subagent" fullEvent) || is_str "task" (get "tool" part)
    then handleSubagentEvent now part fullEvent this
    else handleToolUpdate now part fullEvent this
  else if is_str "step-start" partType then (this, Some step_start)
  else if is_str "step-finish" partType then
    (this, Some (step_finish (get "reason" part) (get "tokens" part)))
  else (this, None).

(** [handleMessageUpdated(properties)] *)
Definition handleMessageUpdated (properties : value) (this : t)
  : t * option streamEvent :=
  if nullish properties then (this, None) else
  let info := get "info" properties in
  if negb (truthy info) then (this, None) else
  let role := get "role" info in
  let finish := get "finish" info in
  let tokens := get "tokens" info in
  let cost := get "cost" info in
  if negb (is_str "assistant" role) then (this, None)
  else if truthy finish then
    if is_str "tool-calls" finish
    then (this, Some (message_tool_calls tokens))
    else (this, Some (message_complete finish tokens cost))
  else (this, None).

(** [handleEvent(event)], [event] being what [JSON.parse] returned.
    A [null] frame cannot be destructured: the [TypeError] is caught by
    [onmessage] and nothing is emitted. *)
Definition handleEvent (now : nat) (event : value) (this : t)
  : t * option streamEvent :=
  if nullish event then (this, None) else
  let type := get "type" event in
  let properties := get "properties" event in
  if is_str "server.connected" type then
    (this, Some (server_connected (or_else properties (Obj []))))
  else if is_str "server.heartbeat" type then (this, None)
  else if is_str "message.part.updated" type then
    handlePartUpdated now properties event this
  else if is_str "message.updated" type then
    handleMessageUpdated properties this
  else if is_str "file.edited" type then (this, Some (file_edited properties))
  else if is_str "session.status" type then
    (this, Some (session_status properties))
  else if is_str "session.error" type then
    (this, Some (session_error properties))
  else if is_str "session.idle" type then (this, Some (session_idle properties))
  else if is_str "connection.error" type then (this, Some (error_ properties))
  else if is_str "question.asked" type then
    (this, Some (question_asked properties))
  else (this, None).

End EventStream.
End EventStream.

(** ** app.js: the state of [App] *)

Module App.
Section App.
Context `{Json}.

Record project := { project_name : string; project_path : string }.

(** A [File] attached to a message. *)
Record file := { file_name : string; file_type : string }.

(** The message box: its text, its placeholder, whether it carries the
    yellow highlight classes, and [disabled]. *)
Record inputEl := {
  input_value : string;
  input_placeholder : string;
  input_highlight : bool;
  input_disabled : bool
}.

Record progressStep := {
  step_id : string;
  step_name : string;
  step_description : value;
  step_status : value
}.

(** The page: the elements cached in [this.elements] that the methods
    below touch (for a button, whether it has class [hidden]; [None]
    for an element the page lacks), the status line and the toasts. *)
Record page := {
  messageInput : option inputEl;
  sendBtn : option bool;
  sendIconBtn : option bool;
  stopBtn : bool;
  chatContainer : document;
  welcomeMessage : bool;               (* is it hidden *)
  statusIndicator : string * string;   (* text, icon *)
  toastContainer : list (string * string)   (* message, type *)
}.

(** The fields of [App] that the methods below read or write.
    [currentMessageEl] and the values of [activeSubagents] are
    references to nodes of the page; [nodes] numbers the next node
    created; [cleanupTimers] counts the armed timers of
    [cleanupAfterMessage]. *)
Record t := {
  eventStream : option EventStream.t;
  currentProject : option project;
  currentSession : value;
  currentModel : value;
  isFirstMessageInSession : bool;
  personalRules : string;
  attachedFiles : list file;
  isStreaming : bool;
  currentMessageEl : option nat;
  currentMessageText : string;
  activeSubagents : gmap string nat;
  progressSteps : list progressStep;
  pendingQuestionRequestId : value;
  isQuestionPending : bool;
  elements : page;
  nodes : nat;
  cleanupTimers : nat
}.

(** Assignments to one field. *)

Definition set_messageInput (x : option inputEl) (el : page) : page :=
  {| messageInput := x; sendBtn := sendBtn el; sendIconBtn := sendIconBtn el;
     stopBtn := stopBtn el; chatContainer := chatContainer el;
     welcomeMessage := welcomeMessage el;
     statusIndicator := statusIndicator el;
     toastContainer := toastContainer el |}.

Definition set_sendBtn (x : option bool) (el : page) : page :=
  {| messageInput := messageInput el; sendBtn := x;
     sendIconBtn := sendIconBtn el; stopBtn := stopBtn el;
     chatContainer := chatContainer el; welcomeMessage := welcomeMessage el;
     statusIndicator := statusIndicator el;
     toastContainer := toastContainer el |}.

Definition set_sendIconBtn (x : option bool) (el : page) : page :=
  {| messageInput := messageInput el; sendBtn := sendBtn el;
     sendIconBtn := x; stopBtn := stopBtn el;
     chatContainer := chatContainer el; welcomeMessage := welcomeMessage el;
     statusIndicator := statusIndicator el;
     toastContainer := toastContainer el |}.

Definition set_stopBtn (x : bool) (el : page) : page :=
  {| messageInput := messageInput el; sendBtn := sendBtn el;
     sendIconBtn := sendIconBtn el; stopBtn := x;
     chatContainer := chatContainer el; welcomeMessage := welcomeMessage el;
     statusIndicator := statusIndicator el;
     toastContainer := toastContainer el |}.

Definition set_chatContainer (x : document) (el : page) : page :=
  {| messageInput := messageInput el; sendBtn := sendBtn el;
     sendIconBtn := sendIconBtn el; stopBtn := stopBtn el;
     chatContainer := x; welcomeMessage := welcomeMessage el;
     statusIndicator := statusIndicator el;
     toastContainer := toastContainer el |}.

Definition set_welcomeMessage (x : bool) (el : page) : page :=
  {| messageInput := messageInput el; sendBtn := sendBtn el;
     sendIconBtn := sendIconBtn el; stopBtn := stopBtn el;
     chatContainer := chatContainer el; welcomeMessage := x;
     statusIndicator := statusIndicator el;
     toastContainer := toastContainer el |}.

Definition set_statusIndicator (x : string * string) (el : page) : page :=
  {| messageInput := messageInput el; sendBtn := sendBtn el;
     sendIconBtn := sendIconBtn el; stopBtn := stopBtn el;
     chatContainer := chatContainer el; welcomeMessage := welcomeMessage el;
     statusIndicator := x; toastContainer := toastContainer el |}.

Definition set_toastContainer (x : list (string * string)) (el : page) : page :=
  {| messageInput := messageInput el; sendBtn := sendBtn el;
     sendIconBtn := sendIconBtn el; stopBtn := stopBtn el;
     chatContainer := chatContainer el; welcomeMessage := welcomeMessage el;
     statusIndicator := statusIndicator el; toastContainer := x |}.

Definition set_eventStream (x : option EventStream.t) (this : t) : t :=
  {| eventStream := x; currentProject := currentProject this;
     currentSession := currentSession this;
     currentModel := currentModel this;
     isFirstMessageInSession := isFirstMessageInSession this;
     personalRules := personalRules this;
     attachedFiles := attachedFiles this; isStreaming := isStreaming this;
     currentMessageEl := currentMessageEl this;
     currentMessageText := currentMessageText this;
     activeSubagents := activeSubagents this;
     progressSteps := progressSteps this;
     pendingQuestionRequestId := pendingQuestionRequestId this;
     isQuestionPending := isQuestionPending this; elements := elements this;
     nodes := nodes this; cleanupTimers := cleanupTimers this |}.

Definition set_currentSession (x : value) (this : t) : t :=
  {| eventStream := eventStream this; currentProject := currentProject this;
     currentSession := x; currentModel := currentModel this;
     isFirstMessageInSession := isFirstMessageInSession this;
     personalRules := personalRules this;
     attachedFiles := attachedFiles this; isStreaming := isStreaming this;
     currentMessageEl := currentMessageEl this;
     currentMessageText := currentMessageText this;
     activeSubagents := activeSubagents this;
     progressSteps := progressSteps this;
     pendingQuestionRequestId := pendingQuestionRequestId this;
     isQuestionPending := isQuestionPending this; elements := elements this;
     nodes := nodes this; cleanupTimers := cleanupTimers this |}.

Definition set_isFirstMessageInSession (x : bool) (this : t) : t :=
  {| eventStream := eventStream this; currentProject := currentProject this;
     currentSession := currentSession this;
     currentModel := currentModel this; isFirstMessageInSession := x;
     personalRules := personalRules this;
     attachedFiles := attachedFiles this; isStreaming := isStreaming this;
     currentMessageEl := currentMessageEl this;
     currentMessageText := currentMessageText this;
     activeSubagents := activeSubagents this;
     progressSteps := progressSteps this;
     pendingQuestionRequestId := pendingQuestionRequestId this;
     isQuestionPending := isQuestionPending this; elements := elements this;
     nodes := nodes this; cleanupTimers := cleanupTimers this |}.

Definition set_attachedFiles (x : list file) (this : t) : t :=
  {| eventStream := eventStream this; currentProject := currentProject this;
     currentSession := currentSession this;
     currentModel := currentModel this;
     isFirstMessageInSession := isFirstMessageInSession this;
     personalRules := personalRules this; attachedFiles := x;
     isStreaming := isStreaming this;
     currentMessageEl := currentMessageEl this;
     currentMessageText := currentMessageText this;
     activeSubagents := activeSubagents this;
     progressSteps := progressSteps this;
     pendingQuestionRequestId := pendingQuestionRequestId this;
     isQuestionPending := isQuestionPending this; elements := elements this;
     nodes := nodes this; cleanupTimers := cleanupTimers this |}.

Definition set_isStreaming (x : bool) (this : t) : t :=
  {| eventStream := eventStream this; currentProject := currentProject this;
     currentSession := currentSession this;
     currentModel := currentModel this;
     isFirstMessageInSession := isFirstMessageInSession this;
     personalRules := personalRules this;
     attachedFiles := attachedFiles this; isStreaming := x;
     currentMessageEl := currentMessageEl this;
     currentMessageText := currentMessageText this;
     activeSubagents := activeSubagents this;
     progressSteps := progressSteps this;
     pendingQuestionRequestId := pendingQuestionRequestId this;
     isQuestionPending := isQuestionPending this; elements := elements this;
     nodes := nodes this; cleanupTimers := cleanupTimers this |}.

Definition set_currentMessageEl (x : option nat) (this : t) : t :=
  {| eventStream := eventStream this; currentProject := currentProject this;
     currentSession := currentSession this;
     currentModel := currentModel this;
     isFirstMessageInSession := isFirstMessageInSession this;
     personalRules := personalRules this;
     attachedFiles := attachedFiles this; isStreaming := isStreaming this;
     currentMessageEl := x; currentMessageText := currentMessageText this;
     activeSubagents := activeSubagents this;
     progressSteps := progressSteps this;
     pendingQuestionRequestId := pendingQuestionRequestId this;
     isQuestionPending := isQuestionPending this; elements := elements this;
     nodes := nodes this; cleanupTimers := cleanupTimers this |}.

Definition set_currentMessageText (x : string) (this : t) : t :=
  {| eventStream := eventStream this; currentProject := currentProject this;
     currentSession := currentSession this;
     currentModel := currentModel this;
     isFirstMessageInSession := isFirstMessageInSession this;
     personalRules := personalRules this;
     attachedFiles := attachedFiles this; isStreaming := isStreaming this;
     currentMessageEl := currentMessageEl this; currentMessageText := x;
     activeSubagents := activeSubagents this;
     progressSteps := progressSteps this;
     pendingQuestionRequestId := pendingQuestionRequestId this;
     isQuestionPending := isQuestionPending this; elements := elements this;
     nodes := nodes this; cleanupTimers := cleanupTimers this |}.

Definition set_activeSubagents (x : gmap string nat) (this : t) : t :=
  {| eventStream := eventStream this; currentProject := currentProject this;
     currentSession := currentSession this;
     currentModel := currentModel this;
     isFirstMessageInSession := isFirstMessageInSession this;
     personalRules := personalRules this;
     attachedFiles := attachedFiles this; isStreaming := isStreaming this;
     currentMessageEl := currentMessageEl this;
     currentMessageText := currentMessageText this; activeSubagents := x;
     progressSteps := progressSteps this;
     pendingQuestionRequestId := pendingQuestionRequestId this;
     isQuestionPending := isQuestionPending this; elements := elements this;
     nodes := nodes this; cleanupTimers := cleanupTimers this |}.

Definition set_progressSteps (x : list progressStep) (this : t) : t :=
  {| eventStream := eventStream this; currentProject := currentProject this;
     currentSession := currentSession this;
     currentModel := currentModel this;
     isFirstMessageInSession := isFirstMessageInSession this;
     personalRules := personalRules this;
     attachedFiles := attachedFiles this; isStreaming := isStreaming this;
     currentMessageEl := currentMessageEl this;
     currentMessageText := currentMessageText this;
     activeSubagents := activeSubagents this; progressSteps := x;
     pendingQuestionRequestId := pendingQuestionRequestId this;
     isQuestionPending := isQuestionPending this; elements := elements this;
     nodes := nodes this; cleanupTimers := cleanupTimers this |}.

Definition set_pendingQuestionRequestId (x : value) (this : t) : t :=
  {| eventStream := eventStream this; currentProject := currentProject this;
     currentSession := currentSession this;
     currentModel := currentModel this;
     isFirstMessageInSession := isFirstMessageInSession this;
     personalRules := personalRules this;
     attachedFiles := attachedFiles this; isStreaming := isStreaming this;
     currentMessageEl := currentMessageEl this;
     currentMessageText := currentMessageText this;
     activeSubagents := activeSubagents this;
     progressSteps := progressSteps this; pendingQuestionRequestId := x;
     isQuestionPending := isQuestionPending this; elements := elements this;
     nodes := nodes this; cleanupTimers := cleanupTimers this |}.

Definition set_isQuestionPending (x : bool) (this : t) : t :=
  {| eventStream := eventStream this; currentProject := currentProject this;
     currentSession := currentSession this;
     currentModel := currentModel this;
     isFirstMessageInSession := isFirstMessageInSession this;
     personalRules := personalRules this;
     attachedFiles := attachedFiles this; isStreaming := isStreaming this;
     currentMessageEl := currentMessageEl this;
     currentMessageText := currentMessageText this;
     activeSubagents := activeSubagents this;
     progressSteps := progressSteps this;
     pendingQuestionRequestId := pendingQuestionRequestId this;
     isQuestionPending := x; elements := elements this; nodes := nodes this;
     cleanupTimers := cleanupTimers this |}.

Definition set_elements (x : page) (this : t) : t :=
  {| eventStream := eventStream this; currentProject := currentProject this;
     currentSession := currentSession this;
     currentModel := currentModel this;
     isFirstMessageInSession := isFirstMessageInSession this;
     personalRules := personalRules this;
     attachedFiles := attachedFiles this; isStreaming := isStreaming this;
     currentMessageEl := currentMessageEl this;
     currentMessageText := currentMessageText this;
     activeSubagents := activeSubagents this;
     progressSteps := progressSteps this;
     pendingQuestionRequestId := pendingQuestionRequestId this;
     isQuestionPending := isQuestionPending this; elements := x;
     nodes := nodes this; cleanupTimers := cleanupTimers this |}.

Definition set_nodes (x : nat) (this : t) : t :=
  {| eventStream := eventStream this; currentProject := currentProject this;
     currentSession := currentSession this;
     currentModel := currentModel this;
     isFirstMessageInSession := isFirstMessageInSession this;
     personalRules := personalRules this;
     attachedFiles := attachedFiles this; isStreaming := isStreaming this;
     currentMessageEl := currentMessageEl this;
     currentMessageText := currentMessageText this;
     activeSubagents := activeSubagents this;
     progressSteps := progressSteps this;
     pendingQuestionRequestId := pendingQuestionRequestId this;
     isQuestionPending := isQuestionPending this; elements := elements this;
     nodes := x; cleanupTimers := cleanupTimers this |}.

Definition set_cleanupTimers (x : nat) (this : t) : t :=
  {| eventStream := eventStream this; currentProject := currentProject this;
     currentSession := currentSession this;
     currentModel := currentModel this;
     isFirstMessageInSession := isFirstMessageInSession this;
     personalRules := personalRules this;
     attachedFiles := attachedFiles this; isStreaming := isStreaming this;
     currentMessageEl := currentMessageEl this;
     currentMessageText := currentMessageText this;
     activeSubagents := activeSubagents this;
     progressSteps := progressSteps this;
     pendingQuestionRequestId := pendingQuestionRequestId this;
     isQuestionPending := isQuestionPending this; elements := elements this;
     nodes := nodes this; cleanupTimers := x |}.

(** What an [async] method waits for. *)
Inductive request : Type :=
| createSession (directory : string)
| readFileAsDataURL (f : file)
| delay (ms : nat)
| sendMessage_ (directory : string) (sessionId : value) (parts : list value)
    (model : value)                    (* api.sendMessage *)
| abortSession (directory : string) (sessionId : value)
| replyQuestion (directory : string) (requestId : value) (answers : value).

(** An exception: [toString()] of an [Error] is its name, a colon and
    its message. *)
Record exception := { name : string; message : string }.

Definition toString (e : exception) : string :=
  name e +:+ ": " +:+ message e.

(** A [TypeError] raised by the engine; its message is the engine's. *)
Definition TypeError : exception := {| name := "TypeError"; message := "" |}.

Inductive settled : Type :=
| fulfilled (result : value)
| rejected (e : exception).

(** The rest of an [async] method: nothing, or a request and what runs
    when it settles, on the state the application has by then. *)
Inductive task : Type :=
| finished
| await (r : request) (resume : settled -> t -> t * task).

(** *** Page helpers *)

(** [updateStatus(text, icon)] *)
Definition updateStatus (text icon : string) (this : t) : t :=
  set_elements (set_statusIndicator (text, icon) (elements this)) this.

(** [createToast(message, type)] *)
Definition createToast (message type : string) (this : t) : t :=
  set_elements
    (set_toastContainer (toastContainer (elements this) ++ [(message, type)])
       (elements this))
    this.

Definition on_bubble_message (n : nat) (f : list child -> list child)
    (b : bubble) : bubble :=
  match b with
  | assistant_message el =>
      if Nat.eqb (message_node el) n
      then assistant_message
             {| message_node := message_node el; container := f (container el) |}
      else b
  | user_message _ _ => b
  end.

(** A component function applied to [this.currentMessageEl]; each of
    them returns at once when given [null]. *)
Definition on_currentMessageEl (f : list child -> list child) (this : t) : t :=
  match currentMessageEl this with
  | None => this
  | Some n =>
      set_elements
        (set_chatContainer
           (List.map (on_bubble_message n f) (chatContainer (elements this)))
           (elements this))
        this
  end.

Definition bubble_container (n : nat) (b : bubble) : option (list child) :=
  match b with
  | assistant_message el =>
      if Nat.eqb (message_node el) n then Some (container el) else None
  | user_message _ _ => None
  end.

Fixpoint container_of (n : nat) (doc : document) : option (list child) :=
  match doc with
  | [] => None
  | b :: rest =>
      match bubble_container n b with
      | Some c => Some c
      | None => container_of n rest
      end
  end.

(** The children of the current message's container. *)
Definition currentContainer (this : t) : option (list child) :=
  n ← currentMessageEl this; container_of n (chatContainer (elements this)).

(** The buttons while a reply streams, and while none does. *)
Definition show_stop (this : t) : t :=
  let el := elements this in
  let el := set_sendBtn ((fun _ => true) <$> sendBtn el) el in
  let el := set_sendIconBtn ((fun _ => true) <$> sendIconBtn el) el in
  set_elements (set_stopBtn false el) this.

Definition show_send (this : t) : t :=
  let el := elements this in
  let el := set_sendBtn ((fun _ => false) <$> sendBtn el) el in
  let el := set_sendIconBtn ((fun _ => false) <$> sendIconBtn el) el in
  set_elements (set_stopBtn true el) this.

(** *** Methods *)

(** [setInputQuestionMode(active)] *)
Definition setInputQuestionMode (active : bool) (this : t) : t :=
  match messageInput (elements this) with
  | None => this
  | Some input =>
      if active then
        set_isQuestionPending true
          (set_elements
             (set_messageInput
                (Some {| input_value := input_value input;
                         input_placeholder :=
                           "👆 小朋友，请先在上面的卡片里回答问题哦！";
                         input_highlight := true;
                         input_disabled := input_disabled input |})
                (elements this))
             this)
      else
        set_isQuestionPending false
          (set_elements
             (set_messageInput
                (Some {| input_value := input_value input;
                         input_placeholder := "输入消息...";
                         input_highlight := false;
                         input_disabled := false |})
                (elements this))
             this)
  end.

(** [startAssistantMessage()] *)
Definition startAssistantMessage (this : t) : t :=
  let n := nodes this in
  let el := {| message_node := n; container := addStreamingIndicator [] |} in
  let this :=
    set_elements
      (set_chatContainer
         (chatContainer (elements this) ++ [assistant_message el])
         (elements this))
      this in
  set_nodes (S n) (set_currentMessageText "" (set_currentMessageEl (Some n) this)).

(** [connectEventStream()]; the stream it replaces is disconnected and
    no longer referenced. *)
Definition connectEventStream (this : t) : t :=
  match currentProject this with
  | None => this
  | Some project =>
      set_eventStream
        (Some (EventStream.connect (EventStream.new (project_path project))))
        this
  end.

(** [cleanupAfterMessage()]: the tracking map is emptied at once, the
    progress steps when the timer fires ([cleanupTimer]). *)
Definition cleanupAfterMessage (this : t) : t :=
  set_cleanupTimers (S (cleanupTimers this)) (set_activeSubagents ∅ this).

(** The callback that [cleanupAfterMessage] arms, three seconds later. *)
Definition cleanupTimer (this : t) : t :=
  set_cleanupTimers (pred (cleanupTimers this)) (set_progressSteps [] this).

(** [stopStreaming()]; the stream is disconnected and dropped. *)
Definition stopStreaming (this : t) : t :=
  let this := set_isStreaming false this in
  let this := show_send this in
  match eventStream this with
  | Some _ => set_eventStream None this
  | None => this
  end.


(** [addProgressStep(step)] *)
Definition addProgressStep (step : progressStep) (this : t) : t :=
  let same (s : progressStep) := String.eqb (step_id s) (step_id step) in
  set_progressSteps
    (if existsb same (progressSteps this)
     then replace_first same step (progressSteps this)
     else progressSteps this ++ [step])
    this.

(** [updateProgressStep(stepId, status)] *)
Definition updateProgressStep (stepId : string) (status : value) (this : t) : t :=
  let same (s : progressStep) := String.eqb (step_id s) stepId in
  match List.find same (progressSteps this) with
  | Some step =>
      set_progressSteps
        (replace_first same
           {| step_id := step_id step; step_name := step_name step;
              step_description := step_description step;
              step_status := status |}
           (progressSteps this))
        this
  | None => this
  end.

(** [addSubagentToMessage(this.currentMessageEl, data)]: the new
    panel's node, if the message exists. *)
Definition addSubagent (fresh : string) (data : SubagentData.t) (this : t)
  : t * option nat :=
  match currentContainer this with
  | None => (this, None)
  | Some _ =>
      let n := nodes this in
      (set_nodes (S n)
         (on_currentMessageEl
            (fun c => addSubagentToMessage fresh n c data) this),
       Some n)
  end.

Definition updatePanel (n : nat) (data : SubagentData.t) (this : t) : t :=
  set_elements
    (set_chatContainer
       (updateSubagentPanel n data (chatContainer (elements this)))
       (elements this))
    this.

(** [handleSubagentStart(data)] *)
Definition handleSubagentStart (now : nat) (fresh : string)
    (data : SubagentData.t) (this : t) : t :=
  match currentMessageEl this with
  | None => this
  | Some _ =>
      let subagentId :=
        if String.eqb (SubagentData.id data) ""
        then "subagent-" +:+ pretty now
        else SubagentData.id data in
      let this :=
        match activeSubagents this !! subagentId with
        | Some panel => updatePanel panel data this
        | None =>
            match addSubagent fresh data this with
            | (this, Some panel) =>
                set_activeSubagents
                  (<[subagentId := panel]> (activeSubagents this)) this
            | (this, None) => this
            end
        end in
      let this := on_currentMessageEl moveStreamingIndicatorToBottom this in
      let type :=
        ToString (or_else (SubagentData.subagentType data) (Str "general")) in
      let this :=
        addProgressStep
          {| step_id := subagentId;
             step_name := "Subagent: " +:+ type;
             step_description := SubagentData.description data;
             step_status := SubagentData.status data |}
          this in
      updateStatus ("执行 Subagent: " +:+ type +:+ "...") "📦" this
  end.

(** The common part of [handleSubagentComplete] and
    [handleSubagentFailed]. *)
Definition settleSubagent (fresh : string) (data : SubagentData.t) (this : t)
  : t :=
  let subagentId := SubagentData.id data in
  match activeSubagents this !! subagentId with
  | Some panel =>
      let this := updatePanel panel data this in
      set_activeSubagents (delete subagentId (activeSubagents this)) this
  | None => fst (addSubagent fresh data this)
  end.

(** [handleSubagentComplete(data)] *)
Definition handleSubagentComplete (fresh : string) (data : SubagentData.t)
    (this : t) : t :=
  let this := settleSubagent fresh data this in
  let this := updateProgressStep (SubagentData.id data) (Str "completed") this in
  updateStatus "处理中..." "⏳" this.

(** [handleSubagentFailed(data)] *)
Definition handleSubagentFailed (fresh : string) (data : SubagentData.t)
    (this : t) : t :=
  let this := settleSubagent fresh data this in
  let this := updateProgressStep (SubagentData.id data) (Str "failed") this in
  createToast
    ("Subagent 执行失败: "
     +:+ ToString (or_else (SubagentData.subagentType data) (Str "unknown")))
    "error" this.

(** [handleSubagentUpdate(data)] *)
Definition handleSubagentUpdate (data : SubagentData.t) (this : t) : t :=
  match activeSubagents this !! SubagentData.id data with
  | Some panel => updatePanel panel data this
  | None => this
  end.

(** *** Tool events *)

(** What the selector [[data-tool-id=id]] matches (for an [id] that a
    CSS string holds as it is). *)
Definition has_toolId (id : string) (c : child) : bool :=
  match c with
  | tool_result el =>
      match dataset_toolId el with
      | Some i => String.eqb i id
      | None => false
      end
  | _ => false
  end.

Fixpoint update_first {A} (sel : A -> bool) (f : A -> A) (l : list A) : list A :=
  match l with
  | [] => []
  | x :: rest => if sel x then f x :: rest else x :: update_first sel f rest
  end.

Definition on_tool (f : toolEl -> toolEl) (c : child) : child :=
  match c with
  | tool_result el => tool_result (f el)
  | _ => c
  end.

Definition with_toolId (id : string) (el : toolEl) : toolEl :=
  {| dataset_toolId := Some id; dataset_tool := dataset_tool el;
     dataset_status := dataset_status el;
     dataset_category := dataset_category el;
     className_status := className_status el;
     header_statusIcon := header_statusIcon el;
     header_toolIcon := header_toolIcon el;
     header_title := header_title el;
     content_hidden := content_hidden el; details := details el |}.

(** [v.length > 0] for an array or a string. *)
Definition length_positive (v : value) : bool :=
  match v with
  | Arr items => (0 <? length items)%nat
  | Str s => (0 <? String.length s)%nat
  | _ => false
  end.

(** Does [createQuestionnaire(data, onSubmit)] return?  It raises a
    [TypeError] when [data.questions] is not an array, when a question
    is nullish, and when a question's non-empty [options] is not an
    array of options that are not nullish. *)
Definition question_renders (q : value) : bool :=
  negb (nullish q) &&
  (let options := get "options" q in
   if truthy options && length_positive options then
     match options with
     | Arr opts => forallb (fun opt => negb (nullish opt)) opts
     | _ => false
     end
   else true).

Definition createQuestionnaire_returns (data : value) : bool :=
  match get "questions" data with
  | Arr qs => forallb question_renders qs
  | _ => false
  end.

(** [addQuestionnaireToMessage(this.currentMessageEl, data, answers =>
    this.submitQuestionnaire(answers, questions))]; [None] when
    [createQuestionnaire] raises. *)
Definition addQuestionnaire (data questions : value) (this : t) : option t :=
  match currentContainer this with
  | None => Some this
  | Some _ =>
      if negb (truthy data) then Some this
      else if createQuestionnaire_returns data then
        Some (on_currentMessageEl
                (fun c => addQuestionnaireToMessage c data questions) this)
      else None
  end.

(** [handleToolEvent(eventType, data)].  An exception raised on the
    way ([createQuestionnaire], [getToolIcon]) comes before any write
    and is caught by the stream's [onmessage]. *)
Definition handleToolEvent (data : ToolData.t) (this : t) : t :=
  let id := ToolData.id data in
  let input := ToolData.input data in
  let existing :=
    match currentContainer this with
    | Some c => existsb (has_toolId id) c
    | None => false
    end in
  if is_str "question" (ToolData.tool data)
     && truthy (get_opt "questions" input) then
    if existing then this
    else default this (addQuestionnaire input (get "questions" input) this)
  else
    match currentContainer this with
    | None => this
    | Some _ =>
        if existing then
          let this :=
            on_currentMessageEl
              (update_first (has_toolId id)
                 (on_tool (fun el =>
                    updateToolStatus el (ToolData.status data)
                      (ToolData.output data) input (ToolData.error data))))
              this in
          on_currentMessageEl moveStreamingIndicatorToBottom this
        else
          match toolResultElement data with
          | None => this
          | Some toolEl =>
              let toolEl :=
                if String.eqb id "" then toolEl else with_toolId id toolEl in
              let this :=
                on_currentMessageEl (fun c => c ++ [tool_result toolEl]) this in
              on_currentMessageEl moveStreamingIndicatorToBottom this
          end
    end.

(** *** Question replies *)






(** *** Sending a message *)

Definition nl : string := String "010"%char EmptyString.

Definition is_space (a : ascii) : bool :=
  let n := nat_of_ascii a in
  ((9 <=? n)%nat && (n <=? 13)%nat) || Nat.eqb n 32.

Fixpoint trimStart (s : string) : string :=
  match s with
  | EmptyString => EmptyString
  | String a s' => if is_space a then trimStart s' else s
  end.

(** [s.trim()], on the ASCII white space. *)
Definition trim (s : string) : string :=
  String.rev (trimStart (String.rev (trimStart s))).

(** The loop over the parts of a synchronous response, from
    [processMessageResponse]: the text, the reasoning and the tool calls
    gathered; [None] is the [TypeError] of reading [type] of a nullish
    part. *)
Fixpoint gatherParts (parts : list value)
    (acc : string * value * list ToolData.t)
  : option (string * value * list ToolData.t) :=
  match parts with
  | [] => Some acc
  | part :: rest =>
      let '(textContent, reasoningText, toolCalls) := acc in
      if nullish part then None
      else if is_str "text" (get "type" part) then
        let textVal := get "text" part in
        let textVal :=
          if String.eqb (typeof textVal) "object"
          then Str (JSON_stringify textVal) else textVal in
        gatherParts rest
          (textContent +:+ ToString (or_else textVal (Str "")),
           reasoningText, toolCalls)
      else if is_str "reasoning" (get "type" part) then
        gatherParts rest
          (textContent, or_else (get "text" part) (Str ""), toolCalls)
      else if is_str "tool" (get "type" part) then
        let state := get "state" part in
        gatherParts rest
          (textContent, reasoningText,
           toolCalls ++ [{|
             ToolData.id := "";
             ToolData.tool := get "tool" part;
             ToolData.status :=
               or_else (get_opt "status" state) (Str "completed");
             ToolData.input := get_opt "input" state;
             ToolData.output := get_opt "output" state;
             ToolData.title := get_opt "title" state;
             ToolData.error := get_opt "error" state;
             ToolData.category := Undefined |}])
      else gatherParts rest acc
  end.

(** The loop [for (const tool of toolCalls) addToolResult(..)]; the
    flag tells whether it ran to its end. *)
Fixpoint addToolResults (toolCalls : list ToolData.t) (this : t) : t * bool :=
  match toolCalls with
  | [] => (this, true)
  | tool :: rest =>
      match currentContainer this with
      | None => addToolResults rest this
      | Some _ =>
          match toolResultElement tool with
          | None => (this, false)
          | Some toolEl =>
              addToolResults rest
                (on_currentMessageEl (fun c => c ++ [tool_result toolEl]) this)
          end
      end
  end.

(** [processMessageResponse(response)]; the flag tells whether the
    method returned (rather than raised). *)
Definition processMessageResponse (response : value) (this : t) : t * bool :=
  let info := get "info" response in
  let parts := get "parts" response in
  if negb (truthy parts) || negb (length_positive parts) then (this, true)
  else
    match gatherParts (match parts with Arr items => items | _ => [] end)
            ("", Str "", []) with
    | None => (this, false)
    | Some (textContent, reasoningText, toolCalls) =>
        let this :=
          if truthy reasoningText
          then on_currentMessageEl
                 (fun c => addThinkingSection c reasoningText) this
          else this in
        match addToolResults toolCalls this with
        | (this, false) => (this, false)
        | (this, true) =>
            let this :=
              if negb (String.eqb textContent "")
              then on_currentMessageEl
                     (fun c => appendTextToMessage c (Str textContent)) this
              else this in
            let this :=
              if truthy info
              then on_currentMessageEl addMessageFooter this
              else this in
            (this, true)
        end
    end.

(** The [catch] clause of [sendMessage]. *)
Definition sendMessage_catch (error : exception) (this : t) : t :=
  if includes "504" (toString error) && bool_decide (is_Some (eventStream this))
  then this
  else
    updateStatus "准备就绪" "⚡"
      (stopStreaming (createToast "发送消息失败" "error" this)).

(** [sendMessage] once [api.sendMessage] has settled. *)
Definition sendMessage_settled (outcome : settled) (this : t) : t :=
  match outcome with
  | fulfilled response =>
      if truthy response && truthy (get "parts" response)
         && length_positive (get "parts" response)
      then
        match processMessageResponse response this with
        | (this, true) => updateStatus "准备就绪" "⚡" (stopStreaming this)
        | (this, false) => sendMessage_catch TypeError this
        end
      else this
  | rejected error => sendMessage_catch error this
  end.

(** [sendMessage] after the 200 ms wait: the request, with the
    project, session and model current by then. *)
Definition sendMessage_request (parts : list value) (this : t) : t * task :=
  match currentProject this with
  | None => (sendMessage_catch TypeError this, finished)
  | Some project =>
      (this,
       await (sendMessage_ (project_path project) (currentSession this) parts
                (currentModel this))
         (fun outcome this => (sendMessage_settled outcome this, finished)))
  end.

(** [sendMessage] from [if (text)] to the wait for the stream. *)
Definition sendMessage_show (fromInput : bool) (text : string)
    (files : list file) (parts : list value) (this : t) : t * task :=
  let withRules :=
    isFirstMessageInSession this
    && negb (String.eqb (personalRules this) "")
    && negb (String.eqb (trim (personalRules this)) "") in
  let messageText :=
    if withRules
    then "[个人规则]" +:+ nl +:+ trim (personalRules this) +:+ nl +:+ nl
         +:+ "[用户消息]" +:+ nl +:+ text
    else text in
  let parts :=
    if String.eqb text "" then parts
    else parts ++ [Obj [("type", Str "text"); ("text", Str messageText)]] in
  let this :=
    if negb (String.eqb text "") && withRules
    then set_isFirstMessageInSession false this else this in
  let this :=
    set_elements
      (set_chatContainer
         (chatContainer (elements this)
          ++ [user_message text (List.map file_name files)])
         (elements this))
      this in
  let this :=
    if fromInput then
      set_attachedFiles []
        (set_elements
           (set_messageInput
              ((fun input =>
                  {| input_value := "";
                     input_placeholder := input_placeholder input;
                     input_highlight := input_highlight input;
                     input_disabled := input_disabled input |})
               <$> messageInput (elements this))
              (elements this))
           this)
    else this in
  let this := set_elements (set_welcomeMessage true (elements this)) this in
  let this := startAssistantMessage this in
  let this := show_stop (set_isStreaming true this) in
  let this := updateStatus "生成中..." "⏳" this in
  let this := connectEventStream this in
  (this, await (delay 200) (fun _ this => sendMessage_request parts this)).

(** The loop [for (const file of files)] of [sendMessage]; a file that
    cannot be read rejects the whole call. *)
Fixpoint sendMessage_files (files : list file) (parts : list value)
    (next : list value -> t -> t * task) (this : t) : t * task :=
  match files with
  | [] => next parts this
  | f :: rest =>
      (this,
       await (readFileAsDataURL f)
         (fun outcome this =>
            match outcome with
            | fulfilled fileData =>
                sendMessage_files rest
                  (parts ++ [Obj [("type", Str "file");
                                  ("mime", Str (file_type f));
                                  ("filename", Str (file_name f));
                                  ("url", fileData)]])
                  next this
            | rejected _ => (this, finished)
            end))
  end.

(** [sendMessage(content, explicitAttachments)] *)
Definition sendMessage (content : option string)
    (explicitAttachments : option (list file)) (this : t) : t * task :=
  match currentProject this with
  | None => (createToast "请先选择一个项目" "warning" this, finished)
  | Some project =>
      let this :=
        if isQuestionPending this then setInputQuestionMode false this
        else this in
      let input :=
        match content with
        | Some text => Some (text, default [] explicitAttachments)
        | None =>
            (fun el => (trim (input_value el), attachedFiles this))
            <$> messageInput (elements this)
        end in
      match input with
      | None => (this, finished)
      | Some (text, files) =>
          if String.eqb text "" && Nat.eqb (length files) 0 then (this, finished)
          else if isStreaming this then (this, finished)
          else
            let continue (this : t) :=
              sendMessage_files files []
                (sendMessage_show (bool_decide (content = None)) text files)
                this in
            if negb (truthy (currentSession this)) then
              (this,
               await (createSession (project_path project))
                 (fun outcome this =>
                    match outcome with
                    | fulfilled session =>
                        if nullish session
                        then (createToast "创建会话失败" "error" this, finished)
                        else
                          continue
                            (set_isFirstMessageInSession true
                               (set_currentSession (get "id" session) this))
                    | rejected _ =>
                        (createToast "创建会话失败" "error" this, finished)
                    end))
            else continue this
      end
  end.


(** *** The stream's callback *)

(** [handleStreamEvent(eventType, data)].  The key normalisation at the
    head of the method copies [_subagent_*] keys of [data] and a summary
    found under [data.properties]; the objects built by [EventStream]
    have none of these, and of a payload passed on as received only
    [id], [questions] and [error] are read below, so it is left out.
    [now] is [Date.now()] and [fresh] what [getUniqueId('subagent')]
    returns.  An exception ends the method where it is raised, and is
    caught by the stream's [onmessage]. *)
Definition handleStreamEvent (now : nat) (fresh : string) (event : streamEvent)
    (this : t) : t :=
  match event with
  | text_delta delta =>
      let delta :=
        if String.eqb (typeof delta) "object"
        then Str (JSON_stringify delta) else delta in
      let this :=
        set_currentMessageText
          (currentMessageText this +:+ ToString (or_else delta (Str ""))) this in
      on_currentMessageEl
        (fun c => appendTextToMessage c (Str (currentMessageText this))) this
  | reasoning text =>
      on_currentMessageEl (fun c => addThinkingSection c text) this
  | tool_pending data | tool_running data | tool_completed data
  | tool_failed data =>
      handleToolEvent data this
  | subagent_pending data | subagent_running data =>
      handleSubagentStart now fresh data this
  | subagent_completed data => handleSubagentComplete fresh data this
  | subagent_failed data => handleSubagentFailed fresh data this
  | subagent_update data => handleSubagentUpdate data this
  | step_start => this
  | step_finish _ _ => this
  | message_complete _ _ _ =>
      let this := on_currentMessageEl addMessageFooter this in
      let this := cleanupAfterMessage this in
      let this := stopStreaming this in
      updateStatus "准备就绪" "⚡" this
  | message_tool_calls _ => updateStatus "执行工具..." "🔧" this
  | question_asked data =>
      match currentMessageEl this with
      | None => this
      | Some _ =>
          if nullish data then this
          else
            let this := set_pendingQuestionRequestId (get "id" data) this in
            let this := on_currentMessageEl removeStreamingIndicator this in
            match addQuestionnaire data (get "questions" data) this with
            | None => this
            | Some this =>
                let this := show_send (set_isStreaming false this) in
                let this := updateStatus "等待回复..." "❓" this in
                setInputQuestionMode true this
            end
      end
  | session_error data =>
      if nullish data then this
      else
        let this :=
          createToast
            ("会话错误: "
             +:+ ToString (or_else (get "error" data) (Str "未知错误")))
            "error" this in
        stopStreaming (cleanupAfterMessage this)
  | session_idle _ => cleanupAfterMessage this
  | connected_ | server_connected _ | tool_update _ | file_edited _
  | session_status _ | error_ _ => this
  end.

(** The data of a frame: text that [JSON.parse] rejects, or the value
    it returns. *)
Inductive frame : Type :=
| malformed
| parsed (event : value).

(** [eventSource.onmessage] of the application's stream, with the
    application's callback as [onEvent]: the frame is decoded by
    [EventStream.handleEvent], and what that emits is handled by
    [handleStreamEvent].  A stream that was disconnected delivers
    nothing. *)
Definition onmessage (now : nat) (fresh : string) (f : frame) (this : t) : t :=
  match f, eventStream this with
  | parsed event, Some stream =>
      if EventStream.eventSource stream then
        let '(stream, emitted) := EventStream.handleEvent now event stream in
        let this := set_eventStream (Some stream) this in
        match emitted with
        | Some e => handleStreamEvent now fresh e this
        | None => this
        end
      else this
  | _, _ => this
  end.

(** [new App()], on the page [el], with the personal rules found in
    local storage. *)
Definition new (personalRules : string) (el : page) : t :=
  {| eventStream := None; currentProject := None; currentSession := Null;
     currentModel := Null; isFirstMessageInSession := true;
     personalRules := personalRules; attachedFiles := []; isStreaming := false;
     currentMessageEl := None; currentMessageText := "";
     activeSubagents := ∅; progressSteps := [];
     pendingQuestionRequestId := Null; isQuestionPending := false;
     elements := el; nodes := 0; cleanupTimers := 0 |}.

(** The frames of a stream, each with what the host returns for
    [Date.now()] and [getUniqueId] while it is handled, delivered in
    order. *)
Definition deliver (frames : list (nat * string * frame)) (this : t) : t :=
  fold_left (fun this '(now, fresh, f) => onmessage now fresh f this)
    frames this.


End App.
End App.

(** ** Shapes of frames *)

Section Frames.
Context `{Json}.

(** A [message.part.updated] frame whose part has [type] ['text']. *)
Definition is_text_update (event : value) : bool :=
  is_str "message.part.updated" (get "type" event)
  && negb (nullish (get "properties" event))
  && is_str "text" (get_opt "type" (get "part" (get "properties" event))).

(** What the [text_delta] case of [App.handleStreamEvent] appends for
    the delta it is given. *)
Definition appended (delta : value) : string :=
  ToString
    (or_else
       (if String.eqb (typeof delta) "object"
        then Str (JSON_stringify delta) else delta)
       (Str "")).

(** What a text update adds to the running text. *)
Definition delta_text (event : value) : string :=
  let delta := get "delta" (get "properties" event) in
  if truthy delta then appended delta else "".

(** A [message.updated] frame with an [info]. *)
Definition is_message_update (event : value) : bool :=
  is_str "message.updated" (get "type" event)
  && negb (nullish (get "properties" event))
  && truthy (get "info" (get "properties" event)).

(** The [type] values that [EventStream.handleEvent] has a case for. *)
Definition recognized : list string :=
  ["server.connected"; "server.heartbeat"; "message.part.updated";
   "message.updated"; "file.edited"; "session.status"; "session.error";
   "session.idle"; "connection.error"; "question.asked"].

Definition is_recognized (type : value) : bool :=
  existsb (fun name => is_str name type) recognized.

End Frames.

Section Runs.
Context `{Json}.

(** The frames that decode to [events], all handled while the host
    returns [now] and [fresh]. *)
Definition frames_of (now : nat) (fresh : string) (events : list value)
  : list (nat * string * App.frame) :=
  List.map (fun event => (now, fresh, App.parsed event)) events.

(** Texts put one after the other. *)
Definition concat_texts (texts : list string) : string :=
  fold_right String.append "" texts.

(** The [.message-text] of the current message shows the running text. *)
Definition shows_text (s : App.t) : Prop :=
  forall c, App.currentContainer s = Some c ->
            List.find is_message_text c
            = Some (message_text (App.currentMessageText s)).

End Runs.

(** ** Vocabulary of the statements *)

Section Vocabulary.
Context `{Json}.

(** One pass over the text that writes each character's reference. *)
Definition escape_char (a : ascii) : string :=
  if Ascii.eqb a "&" then "&amp;"
  else if Ascii.eqb a "<" then "&lt;"
  else if Ascii.eqb a ">" then "&gt;"
  else if Ascii.eqb a quot then "&quot;"
  else if Ascii.eqb a apos then "&#039;"
  else String a EmptyString.

Fixpoint escape_text (s : string) : string :=
  match s with
  | EmptyString => EmptyString
  | String a s' => escape_char a +:+ escape_text s'
  end.

Definition replace_chain (s : string) : string :=
  replaceAll apos "&#039;"
    (replaceAll quot "&quot;"
      (replaceAll ">" "&gt;"
        (replaceAll "<" "&lt;"
          (replaceAll "&" "&amp;" s)))).

(** The page while no reply streams: the send buttons shown, the stop
    button hidden, the status line at rest. *)
Definition ready (s : App.t) : Prop :=
  App.isStreaming s = false
  /\ App.eventStream s = None
  /\ App.stopBtn (App.elements s) = true
  /\ App.sendBtn (App.elements s) ∈ [None; Some false]
  /\ App.sendIconBtn (App.elements s) ∈ [None; Some false]
  /\ App.statusIndicator (App.elements s) = ("准备就绪", "⚡").


(** The chat container of the application. *)
Definition doc (s : App.t) : document := App.chatContainer (App.elements s).


End Vocabulary.


(** ** A host and a page for the closed examples

    Integers stand for the numbers, and a printer without indentation
    or character escapes for [JSON.stringify]; the scan of a task's
    output finds nothing.  No theorem depends on these choices. *)

Definition sample_numbers : Numbers :=
  {| number := Z;
     number_ToBoolean := fun z => negb (Z.eqb z 0);
     number_ToString := fun z => pretty z |}.

Fixpoint sample_stringify (v : @value sample_numbers) : string :=
  match v with
  | Undefined => "undefined"
  | Null => "null"
  | Bool true => "true"
  | Bool false => "false"
  | Num n => pretty (n : Z)
  | Str s => String quot s +:+ String quot EmptyString
  | Arr items => "[" +:+ join "," (List.map sample_stringify items) +:+ "]"
  | Obj fields =>
      "{" +:+ join ","
                (List.map (fun kv => String quot (fst kv) +:+ String quot ":"
                                     +:+ sample_stringify (snd kv)) fields)
      +:+ "}"
  end.

Definition sample_json : @Json sample_numbers :=
  {| JSON_stringify := sample_stringify;
     scanTaskOutput := fun _ =>
       Obj [("tools", Arr []); ("files", Arr []); ("summary", Str "")] |}.

Section Samples.
#[local] Existing Instance sample_numbers.
#[local] Existing Instance sample_json.

Definition sample_page : App.page :=
  {| App.messageInput :=
       Some {| App.input_value := ""; App.input_placeholder := "输入消息...";
               App.input_highlight := false; App.input_disabled := false |};
     App.sendBtn := Some false; App.sendIconBtn := Some false;
     App.stopBtn := true; App.chatContainer := [];
     App.welcomeMessage := false;
     App.statusIndicator := ("准备就绪", "⚡"); App.toastContainer := [] |}.

(** The application at rest, with a project and a session selected. *)
Definition sample_app : App.t :=
  {| App.eventStream := None;
     App.currentProject :=
       Some {| App.project_name := "demo"; App.project_path := "/demo" |};
     App.currentSession := Str "ses_1"; App.currentModel := Null;
     App.isFirstMessageInSession := false; App.personalRules := "";
     App.attachedFiles := []; App.isStreaming := false;
     App.currentMessageEl := None; App.currentMessageText := "";
     App.activeSubagents := ∅; App.progressSteps := [];
     App.pendingQuestionRequestId := Null; App.isQuestionPending := false;
     App.elements := sample_page; App.nodes := 0; App.cleanupTimers := 0 |}.

(** The application after [sendMessage('hello')]: a reply is awaited
    on a new stream. *)
Definition sample_streaming : App.t :=
  fst (App.sendMessage (Some "hello") None sample_app).

(** A [message.part.updated] frame for a text part. *)
Definition text_frame (text delta : value) : value :=
  Obj [("type", Str "message.part.updated");
       ("properties",
        Obj [("part", Obj [("type", Str "text"); ("text", text)]);
             ("delta", delta)])].

(** A [message.updated] frame of an assistant message. *)
Definition finish_frame (finish : value) : value :=
  Obj [("type", Str "message.updated");
       ("properties",
        Obj [("info", Obj [("role", Str "assistant"); ("finish", finish);
                           ("tokens", Obj []); ("cost", Null)])])].







End Samples.

(** * Properties *)

(** ** [escapeHtml] *)

Section EscapeHtmlFacts.
Context `{Json}.

Lemma append_nil (t : string) : "" +:+ t = t.
Proof. reflexivity. Qed.

Lemma append_cons a (s t : string) : String a s +:+ t = String a (s +:+ t).
Proof. reflexivity. Qed.

Lemma append_assoc (s t u : string) : (s +:+ t) +:+ u = s +:+ (t +:+ u).
Proof.
  induction s as [|a s IH]; [reflexivity|].
  rewrite !append_cons, IH. reflexivity.
Qed.

Lemma replaceAll_app c r s t :
  replaceAll c r (s +:+ t) = replaceAll c r s +:+ replaceAll c r t.
Proof.
  induction s as [|a s IH]; [reflexivity|].
  rewrite append_cons. cbn [replaceAll].
  destruct (Ascii.eqb a c); rewrite IH.
  - symmetry. apply append_assoc.
  - reflexivity.
Qed.

Lemma replace_chain_cons a s :
  replace_chain (String a s) = escape_char a +:+ replace_chain s.
Proof.
  unfold replace_chain, escape_char.
  cbn [replaceAll].
  destruct (Ascii.eqb_spec a "&") as [->|Hamp].
  { rewrite !replaceAll_app. reflexivity. }
  cbn [replaceAll].
  destruct (Ascii.eqb_spec a "<") as [->|Hlt].
  { rewrite !replaceAll_app. reflexivity. }
  cbn [replaceAll].
  destruct (Ascii.eqb_spec a ">") as [->|Hgt].
  { rewrite !replaceAll_app. reflexivity. }
  cbn [replaceAll].
  destruct (Ascii.eqb_spec a quot) as [->|Hq].
  { rewrite !replaceAll_app. reflexivity. }
  cbn [replaceAll].
  destruct (Ascii.eqb_spec a apos) as [->|Ha]; reflexivity.
Qed.

Lemma replace_chain_escape_text s : replace_chain s = escape_text s.
Proof.
  induction s as [|a s IH]; [reflexivity|].
  rewrite replace_chain_cons, IH. reflexivity.
Qed.

Lemma inert_reference (t : string) :
  inert ("&amp;" +:+ t) = inert t /\ inert ("&lt;" +:+ t) = inert t
  /\ inert ("&gt;" +:+ t) = inert t /\ inert ("&quot;" +:+ t) = inert t
  /\ inert ("&#039;" +:+ t) = inert t.
Proof. repeat split; reflexivity. Qed.

Lemma inert_escape_text s : inert (escape_text s) = true.
Proof.
  induction s as [|a s IH]; [reflexivity|].
  cbn [escape_text]. unfold escape_char.
  destruct (inert_reference (escape_text s)) as (E1 & E2 & E3 & E4 & E5).
  destruct (Ascii.eqb_spec a "&") as [->|Hamp]; [now rewrite E1|].
  destruct (Ascii.eqb_spec a "<") as [->|Hlt]; [now rewrite E2|].
  destruct (Ascii.eqb_spec a ">") as [->|Hgt]; [now rewrite E3|].
  destruct (Ascii.eqb_spec a quot) as [->|Hq]; [now rewrite E4|].
  destruct (Ascii.eqb_spec a apos) as [->|Ha]; [now rewrite E5|].
  rewrite append_cons, append_nil. cbn [inert]. unfold markup_char.
  rewrite IH.
  rewrite <- Ascii.eqb_neq in Hamp, Hlt, Hgt, Hq, Ha.
  rewrite Hamp, Hlt, Hgt, Hq, Ha. reflexivity.
Qed.

Lemma inert_no_markup s c :
  inert s = true -> markup_char c = true -> occurs c s = false.
Proof.
  intros Hs Hc. induction s as [|a s IH]; [reflexivity|].
  cbn [inert] in Hs. apply andb_prop in Hs as [Hs Hs3].
  apply andb_prop in Hs as [Hs1 Hs2].
  cbn [occurs]. rewrite (IH Hs3), orb_false_r.
  destruct (Ascii.eqb_spec a c) as [->|]; [|reflexivity].
  rewrite Hc in Hs1. discriminate.
Qed.

Lemma escapeHtml_chain (unsafe : value) :
  exists s, escapeHtml unsafe = replace_chain s \/ escapeHtml unsafe = "".
Proof.
  unfold escapeHtml. destruct (nullish unsafe).
  - exists "". right. reflexivity.
  - eexists. left. reflexivity.
Qed.

(** C10: [escapeHtml] is defined on every value and returns a string
    in which none of [<], [>], the double quote and the single quote
    occurs and in which every [&] starts one of the references
    [&amp;], [&lt;], [&gt;], [&quot;], [&#039;]. *)
Theorem escapeHtml_inert (unsafe : value) :
  inert (escapeHtml unsafe) = true
  /\ occurs "<" (escapeHtml unsafe) = false
  /\ occurs ">" (escapeHtml unsafe) = false
  /\ occurs quot (escapeHtml unsafe) = false
  /\ occurs apos (escapeHtml unsafe) = false.
Proof.
  assert (Hi : inert (escapeHtml unsafe) = true).
  { destruct (escapeHtml_chain unsafe) as [s [-> | ->]]; [|reflexivity].
    rewrite replace_chain_escape_text. apply inert_escape_text. }
  repeat split; [exact Hi | ..]; apply inert_no_markup; auto.
Qed.

End EscapeHtmlFacts.

(** ** The state of the application *)

Section AppFacts.
Context `{Json}.

Lemma set_eventStream_same (s : App.t) x :
  App.eventStream s = x -> App.set_eventStream x s = s.
Proof. destruct s; simpl; intros <-; reflexivity. Qed.

Lemma container_of_map n f doc :
  App.container_of n (List.map (App.on_bubble_message n f) doc)
  = f <$> App.container_of n doc.
Proof.
  induction doc as [|b doc IH]; [reflexivity|].
  cbn [List.map App.container_of].
  destruct b as [text att|el]; cbn; [exact IH|].
  destruct (Nat.eqb (message_node el) n) eqn:E; cbn; rewrite E; [reflexivity|].
  exact IH.
Qed.

Lemma currentContainer_on_currentMessageEl f (s : App.t) :
  App.currentContainer (App.on_currentMessageEl f s)
  = f <$> App.currentContainer s.
Proof.
  unfold App.currentContainer, App.on_currentMessageEl.
  destruct (App.currentMessageEl s) as [n|] eqn:E; cbn; rewrite E; cbn.
  - apply container_of_map.
  - reflexivity.
Qed.

End AppFacts.

(** ** Frames that the decoder has no case for *)

Section Decoder.
Context `{Json}.

Lemma not_recognized type :
  is_recognized type = false ->
  forall name, In name recognized -> is_str name type = false.
Proof.
  unfold is_recognized. intros Hn name Hin.
  destruct (is_str name type) eqn:E; [|reflexivity].
  rewrite <- Hn. symmetry. apply existsb_exists. eauto.
Qed.

(** C5, as the code has it: a frame whose [type] is none of the
    recognized ones is dropped by the decoder.  [handleEvent] makes no
    call to [onEvent] for it and leaves the stream as it was, so the
    application's handler never runs and the application's state is
    unchanged. *)
Theorem unknown_type_dropped now fresh (event : value) (s : App.t) :
  is_recognized (get "type" event) = false ->
  (forall stream, EventStream.handleEvent now event stream = (stream, None))
  /\ App.onmessage now fresh (App.parsed event) s = s.
Proof.
  intros Hn.
  assert (Hd : forall stream,
             EventStream.handleEvent now event stream = (stream, None)).
  { intros stream. unfold EventStream.handleEvent.
    destruct (nullish event); [reflexivity|].
    pose proof (not_recognized _ Hn) as Hr.
    rewrite !Hr by (unfold recognized; simpl; tauto). reflexivity. }
  split; [exact Hd|].
  unfold App.onmessage.
  destruct (App.eventStream s) as [stream|] eqn:E; [|reflexivity].
  destruct (EventStream.eventSource stream); [|reflexivity].
  rewrite Hd. now apply set_eventStream_same.
Qed.

End Decoder.

(** ** [message.updated] *)

Section MessageUpdated.
Context `{Json}.

Lemma handleMessageUpdated_emits (event : value) stream :
  is_message_update event = true ->
  let info := get "info" (get "properties" event) in
  forall now,
  EventStream.handleEvent now event stream =
  (stream,
   if negb (is_str "assistant" (get "role" info)) then None
   else if truthy (get "finish" info) then
     if is_str "tool-calls" (get "finish" info)
     then Some (message_tool_calls (get "tokens" info))
     else Some (message_complete (get "finish" info) (get "tokens" info)
                  (get "cost" info))
   else None).
Proof.
  intros Hm info now. unfold is_message_update in Hm.
  apply andb_prop in Hm as [Hm Hinfo]. apply andb_prop in Hm as [Htype Hprops].
  apply negb_true_iff in Hprops.
  unfold EventStream.handleEvent.
  assert (Hev : nullish event = false).
  { destruct event; try reflexivity; discriminate Htype. }
  rewrite Hev.
  destruct (get "type" event) as [| |b|n|t|l|l]; try discriminate Htype.
  cbn [is_str] in *. apply String.eqb_eq in Htype. subst t. cbn.
  unfold EventStream.handleMessageUpdated. rewrite Hprops.
  rewrite Hinfo. fold info. cbn [negb].
  destruct (is_str "assistant" (get "role" info)); cbn [negb]; [|reflexivity].
  destruct (truthy (get "finish" info)); [|reflexivity].
  destruct (is_str "tool-calls" (get "finish" info)); reflexivity.
Qed.

Lemma message_complete_handled now fresh finish tokens cost (s : App.t) :
  let s' :=
    App.handleStreamEvent now fresh (message_complete finish tokens cost) s in
  App.isStreaming s' = false
  /\ App.eventStream s' = None
  /\ App.activeSubagents s' = ∅
  /\ App.stopBtn (App.elements s') = true
  /\ App.statusIndicator (App.elements s') = ("准备就绪", "⚡")
  /\ App.currentContainer s'
     = removeStreamingIndicator <$> App.currentContainer s.
Proof.
  cbn [App.handleStreamEvent]. cbn zeta.
  assert (E : App.currentContainer (App.on_currentMessageEl addMessageFooter s)
              = removeStreamingIndicator <$> App.currentContainer s)
    by apply (currentContainer_on_currentMessageEl removeStreamingIndicator s).
  rewrite <- E. clear E.
  generalize (App.on_currentMessageEl addMessageFooter s). intros s1.
  unfold App.stopStreaming, App.currentContainer. cbn.
  destruct (App.eventStream s1) eqn:Es; cbn; rewrite ?Es;
    repeat split; reflexivity.
Qed.

(** C2, as the code has it.  For a [message.updated] frame with an
    [info], delivered on the live stream: a role other than
    ['assistant'] changes nothing, and so does a [finish] that is falsy
    (absent, [null], or the empty string); [finish === 'tool-calls']
    emits the tool-calls signal, which only rewrites the status line
    (streaming goes on); any other truthy [finish] emits the completion
    signal with [finish], [tokens] and [cost], on which the application
    removes the indicator from the current message, empties the
    sub-agent map, stops streaming and drops the stream. *)
Theorem message_updated_completes now fresh (event : value) (s : App.t) stream :
  App.eventStream s = Some stream ->
  EventStream.eventSource stream = true ->
  is_message_update event = true ->
  let info := get "info" (get "properties" event) in
  let role := get "role" info in
  let finish := get "finish" info in
  let emitted := snd (EventStream.handleEvent now event stream) in
  let s' := App.onmessage now fresh (App.parsed event) s in
  (is_str "assistant" role = false -> emitted = None /\ s' = s)
  /\ (is_str "assistant" role = true -> truthy finish = false ->
      emitted = None /\ s' = s)
  /\ (is_str "assistant" role = true -> is_str "tool-calls" finish = true ->
      emitted = Some (message_tool_calls (get "tokens" info))
      /\ s' = App.updateStatus "执行工具..." "🔧" s
      /\ App.isStreaming s' = App.isStreaming s
      /\ App.eventStream s' = Some stream)
  /\ (is_str "assistant" role = true -> truthy finish = true ->
      is_str "tool-calls" finish = false ->
      emitted = Some (message_complete finish (get "tokens" info)
                        (get "cost" info))
      /\ App.isStreaming s' = false
      /\ App.eventStream s' = None
      /\ App.activeSubagents s' = ∅
      /\ App.stopBtn (App.elements s') = true
      /\ App.statusIndicator (App.elements s') = ("准备就绪", "⚡")
      /\ App.currentContainer s'
         = removeStreamingIndicator <$> App.currentContainer s).
Proof.
  intros Hs Hlive Hm info role finish emitted s'.
  pose proof (handleMessageUpdated_emits event stream Hm now) as He.
  cbn zeta in He. fold info role finish in He.
  assert (Hs' : s' = match emitted with
                     | Some e => App.handleStreamEvent now fresh e s
                     | None => s
                     end).
  { subst s' emitted. unfold App.onmessage. rewrite Hs, Hlive, He. cbn [snd].
    rewrite (set_eventStream_same s _ Hs). reflexivity. }
  subst emitted. rewrite He in Hs' |- *. cbn [snd] in *. clear He.
  repeat split.
  - rewrite H1. reflexivity.
  - rewrite Hs', H1. reflexivity.
  - rewrite H1, H2. reflexivity.
  - rewrite Hs', H1, H2. reflexivity.
  - assert (truthy finish = true) as ->.
    { destruct finish; try discriminate. cbn in *.
      apply String.eqb_eq in H2. subst. reflexivity. }
    rewrite H1, H2. reflexivity.
  - rewrite Hs', H1, H2.
    assert (truthy finish = true) as ->.
    { destruct finish; try discriminate. cbn in *.
      apply String.eqb_eq in H2. subst. reflexivity. }
    reflexivity.
  - rewrite Hs', H1, H2.
    assert (truthy finish = true) as ->.
    { destruct finish; try discriminate. cbn in *.
      apply String.eqb_eq in H2. subst. reflexivity. }
    reflexivity.
  - rewrite Hs', H1, H2.
    assert (truthy finish = true) as ->.
    { destruct finish; try discriminate. cbn in *.
      apply String.eqb_eq in H2. subst. reflexivity. }
    cbn. exact Hs.
  - rewrite H1, H2, H3. reflexivity.
  - rewrite Hs', H1, H2, H3. apply message_complete_handled.
  - rewrite Hs', H1, H2, H3. apply message_complete_handled.
  - rewrite Hs', H1, H2, H3. apply message_complete_handled.
  - rewrite Hs', H1, H2, H3. apply message_complete_handled.
  - rewrite Hs', H1, H2, H3. apply message_complete_handled.
  - rewrite Hs', H1, H2, H3. apply message_complete_handled.
Qed.

End MessageUpdated.

(** ** Text updates *)

Section TextUpdates.
Context `{Json}.

Lemma find_replace_first {A} (sel : A -> bool) (new : A) (l : list A) :
  sel new = true -> existsb sel l = true ->
  List.find sel (replace_first sel new l) = Some new.
Proof.
  intros Hn. induction l as [|x l IH]; [discriminate|].
  cbn. destruct (sel x) eqn:E; cbn.
  - now rewrite Hn.
  - intros Hl. rewrite E. auto.
Qed.

Lemma find_app_new {A} (sel : A -> bool) (new : A) (l : list A) :
  sel new = true -> existsb sel l = false ->
  List.find sel (l ++ [new]) = Some new.
Proof.
  intros Hn. induction l as [|x l IH]; cbn.
  - now rewrite Hn.
  - destruct (sel x); [discriminate|]. auto.
Qed.

Lemma find_appendTextToMessage c (text : string) :
  List.find is_message_text (appendTextToMessage c (Str text))
  = Some (message_text text).
Proof.
  unfold appendTextToMessage.
  change (markdown_source (Str text)) with text.
  destruct (existsb is_message_text c) eqn:E.
  - now apply find_replace_first.
  - now apply find_app_new.
Qed.

Lemma text_delta_handled now fresh (delta : value) (s : App.t) :
  let s' := App.handleStreamEvent now fresh (text_delta delta) s in
  App.currentMessageText s' = App.currentMessageText s +:+ appended delta
  /\ App.eventStream s' = App.eventStream s
  /\ shows_text s'.
Proof.
  cbn [App.handleStreamEvent]. cbn zeta.
  set (text := App.currentMessageText s +:+ _).
  set (s1 := App.set_currentMessageText text s).
  change (App.currentMessageText s1) with text.
  assert (Hf : forall f, App.currentMessageText (App.on_currentMessageEl f s1)
                         = text
                         /\ App.eventStream (App.on_currentMessageEl f s1)
                            = App.eventStream s).
  { intros f. unfold App.on_currentMessageEl.
    destruct (App.currentMessageEl s1); split; reflexivity. }
  repeat split; try apply Hf.
  intros c. rewrite currentContainer_on_currentMessageEl.
  destruct (App.currentContainer s1) as [c1|]; [|discriminate].
  cbn. intros [= <-]. rewrite (proj1 (Hf _)).
  apply find_appendTextToMessage.
Qed.

Lemma text_update_delivered now fresh (event : value) (s : App.t) stream :
  App.eventStream s = Some stream ->
  EventStream.eventSource stream = true ->
  is_text_update event = true ->
  App.onmessage now fresh (App.parsed event) s
  = if truthy (get "delta" (get "properties" event))
    then App.handleStreamEvent now fresh
           (text_delta (get "delta" (get "properties" event))) s
    else s.
Proof.
  intros Hs Hlive Ht. unfold is_text_update in Ht.
  apply andb_prop in Ht as [Ht Hpart]. apply andb_prop in Ht as [Htype Hprops].
  apply negb_true_iff in Hprops.
  assert (Hev : nullish event = false).
  { destruct event; try reflexivity; discriminate Htype. }
  assert (He : EventStream.handleEvent now event stream
               = (stream,
                  if truthy (get "delta" (get "properties" event))
                  then Some (text_delta (get "delta" (get "properties" event)))
                  else None)).
  { unfold EventStream.handleEvent. rewrite Hev.
    destruct (get "type" event) as [| |b|n|t|l|l]; try discriminate Htype.
    cbn [is_str] in *. apply String.eqb_eq in Htype. subst t. cbn.
    unfold EventStream.handlePartUpdated. rewrite Hprops.
    destruct (get_opt "type" (get "part" (get "properties" event)))
      as [| |b|n|t|l|l]; try discriminate Hpart.
    cbn [is_str] in *. apply String.eqb_eq in Hpart. subst t. reflexivity. }
  unfold App.onmessage. rewrite Hs, Hlive, He.
  rewrite (set_eventStream_same s _ Hs).
  destruct (truthy _); reflexivity.
Qed.

(** C1, as the code has it.  Text updates delivered on the live
    stream: each one whose [delta] is truthy appends it to the running
    text (a string as it is, an object as its JSON text, anything else
    through [String]), and each one whose [delta] is absent or falsy is
    ignored, whatever its [part.text].  So the running text ends as the
    text before followed by the deltas in order; a run without deltas
    leaves the application as it was; and once a delta was taken, the
    current message shows the running text. *)
Theorem text_updates_append_deltas now fresh (events : list value)
    (s : App.t) stream :
  App.eventStream s = Some stream ->
  EventStream.eventSource stream = true ->
  Forall (fun event => is_text_update event = true) events ->
  let s' := App.deliver (frames_of now fresh events) s in
  App.currentMessageText s'
  = App.currentMessageText s +:+ concat_texts (List.map delta_text events)
  /\ App.eventStream s' = Some stream
  /\ (Forall (fun event =>
                truthy (get "delta" (get "properties" event)) = false) events ->
      s' = s)
  /\ (Exists (fun event =>
                truthy (get "delta" (get "properties" event)) = true) events ->
      shows_text s').
Proof.
  intros Hs Hlive Hall. revert s Hs.
  induction Hall as [|event events Hev Hall IH]; intros s Hs.
  - cbn. repeat split.
    + clear. induction (App.currentMessageText s) as [|a t IHt];
        [reflexivity | rewrite append_cons; congruence].
    + exact Hs.
    + intros Hex. inversion Hex.
  - cbn [frames_of List.map App.deliver fold_left].
    fold (frames_of now fresh events).
    change (fold_left _ (frames_of now fresh events) ?x)
      with (App.deliver (frames_of now fresh events) x).
    rewrite (text_update_delivered now fresh event s stream Hs Hlive Hev).
    unfold delta_text at 1. cbn [concat_texts fold_right].
    fold (concat_texts (List.map delta_text events)).
    destruct (truthy (get "delta" (get "properties" event))) eqn:Hd.
    + destruct (text_delta_handled now fresh
                  (get "delta" (get "properties" event)) s) as (Ht & Hst & Hshow).
      cbn zeta in Ht, Hst, Hshow.
      set (s1 := App.handleStreamEvent now fresh _ s) in *.
      rewrite Hs in Hst.
      destruct (IH s1 Hst) as (IH1 & IH2 & IH3 & IH4). cbn zeta in *.
      repeat split.
      * rewrite IH1, Ht. apply append_assoc.
      * exact IH2.
      * intros Hf. inversion Hf; subst. congruence.
      * intros _.
        destruct (Exists_dec
                    (fun event =>
                       truthy (get "delta" (get "properties" event)) = true)
                    events) as [Hex|Hnex].
        -- auto.
        -- rewrite IH3; [exact Hshow|].
           apply Forall_Exists_neg in Hnex.
           eapply Forall_impl; [exact Hnex|].
           cbn. intros e He. now apply not_true_is_false.
    + destruct (IH s Hs) as (IH1 & IH2 & IH3 & IH4). cbn zeta in *.
      repeat split.
      * rewrite IH1. reflexivity.
      * exact IH2.
      * intros Hf. inversion Hf; subst. auto.
      * intros Hex. inversion Hex; subst; [congruence|auto].
Qed.

End TextUpdates.

(** ** Abort *)

Section Abort.
Context `{Json}.

Lemma stopStreaming_ready (s : App.t) :
  ready (App.updateStatus "准备就绪" "⚡" (App.stopStreaming s)).
Proof.
  unfold ready, App.stopStreaming.
  destruct (App.eventStream (App.show_send (App.set_isStreaming false s)))
    eqn:Es; cbn; cbn in Es; rewrite ?Es; repeat split;
    try reflexivity;
    [destruct (App.sendBtn (App.elements s)) | destruct (App.sendIconBtn (App.elements s))
    |destruct (App.sendBtn (App.elements s)) | destruct (App.sendIconBtn (App.elements s))];
    cbn; set_solver.
Qed.



End Abort.

(** ** A request that times out while the stream is there *)

Section Timeout.
Context `{Json}.

(** The request of [sendMessage] is made after the wait that follows
    the opening of the stream, and [sendMessage_settled] is what runs
    when it settles. *)
Lemma sendMessage_awaits (text : string) (s : App.t) project :
  App.currentProject s = Some project ->
  truthy (App.currentSession s) = true ->
  App.isStreaming s = false ->
  text <> "" ->
  exists s1 wait,
    App.sendMessage (Some text) None s = (s1, App.await (App.delay 200) wait)
    /\ App.isStreaming s1 = true
    /\ is_Some (App.eventStream s1)
    /\ forall outcome s2 project2,
         App.currentProject s2 = Some project2 ->
         exists parts,
           wait outcome s2
           = (s2, App.await
                    (App.sendMessage_ (App.project_path project2)
                       (App.currentSession s2) parts (App.currentModel s2))
                    (fun outcome this =>
                       (App.sendMessage_settled outcome this, App.finished))).
Proof.
  intros Hp Hs Hst Ht. unfold App.sendMessage. rewrite Hp.
  assert (Hq : forall s0 : App.t,
             App.currentProject
               (if App.isQuestionPending s0
                then App.setInputQuestionMode false s0 else s0)
             = App.currentProject s0
             /\ App.currentSession
                  (if App.isQuestionPending s0
                   then App.setInputQuestionMode false s0 else s0)
                = App.currentSession s0
             /\ App.isStreaming
                  (if App.isQuestionPending s0
                   then App.setInputQuestionMode false s0 else s0)
                = App.isStreaming s0).
  { intros s0. unfold App.setInputQuestionMode.
    destruct (App.isQuestionPending s0); [|auto].
    destruct (App.messageInput (App.elements s0)); auto. }
  destruct (Hq s) as (Hq1 & Hq2 & Hq3).
  set (s0 := if App.isQuestionPending s then _ else s) in *.
  cbn [default].
  apply String.eqb_neq in Ht. rewrite Ht. cbn [andb].
  rewrite Hq3, Hst, Hq2, Hs. cbn [negb App.sendMessage_files].
  unfold App.sendMessage_show. cbn zeta.
  rewrite bool_decide_eq_false_2 by discriminate.
  rewrite Ht. cbn [negb andb].
  eexists. eexists. split; [reflexivity|].
  assert (Hc : forall s3 : App.t,
             App.currentProject s3 = Some project ->
             App.isStreaming s3 = true ->
             App.isStreaming (App.connectEventStream s3) = true
             /\ is_Some (App.eventStream (App.connectEventStream s3))).
  { intros s3 Hp3 Hs3. unfold App.connectEventStream. rewrite Hp3. cbn. eauto. }
  split; [|split].
  - apply Hc; [|reflexivity].
    destruct (App.isFirstMessageInSession s0 && _ && _); cbn; congruence.
  - apply Hc; [|reflexivity].
    destruct (App.isFirstMessageInSession s0 && _ && _); cbn; congruence.
  - intros outcome s2 project2 Hp2. unfold App.sendMessage_request.
    rewrite Hp2. eexists. reflexivity.
Qed.

(** C9.  When the request of [sendMessage] is rejected with an error
    whose text contains [504]: if the application still holds its
    stream, nothing is reported and nothing changes (streaming stays as
    it is, to be ended by the stream); only when it holds no stream is
    the failure reported in a toast and streaming stopped. *)
Theorem timeout_with_stream_is_ignored (error : App.exception) (s : App.t) :
  includes "504" (App.toString error) = true ->
  let s' := App.sendMessage_settled (App.rejected error) s in
  (is_Some (App.eventStream s) -> s' = s)
  /\ (App.eventStream s = None ->
      App.toastContainer (App.elements s')
      = App.toastContainer (App.elements s) ++ [("发送消息失败", "error")]
      /\ App.isStreaming s' = false
      /\ ready s')
  /\ (s' <> s -> App.eventStream s = None).
Proof.
  intros H504. cbn [App.sendMessage_settled]. unfold App.sendMessage_catch.
  rewrite H504. cbn [andb].
  repeat split.
  - intros Hsome. now rewrite bool_decide_eq_true_2.
  - rewrite bool_decide_eq_false_2 by (rewrite H1; intros [? ?]; discriminate).
    unfold App.stopStreaming. cbn. rewrite H1. reflexivity.
  - rewrite bool_decide_eq_false_2 by (rewrite H1; intros [? ?]; discriminate).
    unfold App.stopStreaming. cbn. rewrite H1. reflexivity.
  - rewrite bool_decide_eq_false_2 by (rewrite H1; intros [? ?]; discriminate).
    apply stopStreaming_ready.
  - rewrite bool_decide_eq_false_2 by (rewrite H1; intros [? ?]; discriminate).
    apply stopStreaming_ready.
  - rewrite bool_decide_eq_false_2 by (rewrite H1; intros [? ?]; discriminate).
    apply stopStreaming_ready.
  - rewrite bool_decide_eq_false_2 by (rewrite H1; intros [? ?]; discriminate).
    apply stopStreaming_ready.
  - rewrite bool_decide_eq_false_2 by (rewrite H1; intros [? ?]; discriminate).
    apply stopStreaming_ready.
  - rewrite bool_decide_eq_false_2 by (rewrite H1; intros [? ?]; discriminate).
    apply stopStreaming_ready.
  - intros Hne. destruct (App.eventStream s) eqn:Es; [|reflexivity].
    rewrite bool_decide_eq_true_2 in Hne by eauto. congruence.
Qed.

End Timeout.

(** ** Question replies *)

Section Answers.
Context `{Json}.



End Answers.

(** ** The pending question *)

Section PendingQuestion.
Context `{Json}.







End PendingQuestion.

(** ** Tool events *)

Section ToolEvents.
Context `{Json}.












End ToolEvents.

(** ** Sub-agent tasks *)

Section Subagents.
Context `{Json}.










End Subagents.

(** ** The statements at work on closed inputs *)

Section Examples.
#[local] Existing Instance sample_numbers.
#[local] Existing Instance sample_json.

(** C1: two deltas, the second frame without one. *)
Lemma text_updates_append_deltas_witness :
  let events := [text_frame (Str "Hel") (Str "Hel");
                 text_frame (Str "Hello") Undefined;
                 text_frame (Str "Hello!") (Str "lo!")] in
  App.currentMessageText (App.deliver (frames_of 0 "" events) sample_streaming)
  = "" +:+ concat_texts (List.map delta_text events).
Proof.
  intros events.
  refine (proj1 (text_updates_append_deltas 0 "" events sample_streaming
                   (EventStream.connect (EventStream.new "/demo")) _ _ _)).
  - reflexivity.
  - reflexivity.
  - repeat constructor.
Defined.

(** C1 as stated fails: the same text sent as deltas and sent as full
    texts ends as two different running texts, because a frame without
    a delta is ignored. *)
Lemma full_text_updates_are_ignored :
  App.currentMessageText
    (App.deliver
       (frames_of 0 "" [text_frame (Str "Hel") (Str "Hel");
                        text_frame (Str "Hello") (Str "lo")])
       sample_streaming) = "Hello"
  /\ App.currentMessageText
       (App.deliver
          (frames_of 0 "" [text_frame (Str "Hel") Undefined;
                           text_frame (Str "Hello") Undefined])
          sample_streaming) = "".
Proof. split; reflexivity. Qed.

(** C2: a [finish] of ['stop'] on the live stream. *)
Lemma message_updated_completes_witness :
  App.isStreaming
    (App.onmessage 0 "" (App.parsed (finish_frame (Str "stop"))) sample_streaming)
  = false.
Proof.
  refine (proj1 (proj2 (proj2 (proj2 (proj2
            (message_updated_completes 0 "" (finish_frame (Str "stop"))
               sample_streaming (EventStream.connect (EventStream.new "/demo"))
               _ _ _))) _ _ _))); reflexivity.
Defined.

(** C2 as stated fails: the empty string is a [finish] that is neither
    [null] nor ['tool-calls'], and the message is not completed. *)
Lemma empty_finish_does_not_complete :
  let event := finish_frame (Str "") in
  nullish (get "finish" (get "info" (get "properties" event))) = false
  /\ snd (EventStream.handleEvent 0 event
            (EventStream.connect (EventStream.new "/demo"))) = None
  /\ App.isStreaming (App.onmessage 0 "" (App.parsed event) sample_streaming)
     = true.
Proof. repeat split; reflexivity. Qed.




(** C5: a frame of a type that has no case. *)
Lemma unknown_type_dropped_witness :
  App.onmessage 0 ""
    (App.parsed (Obj [("type", Str "session.compacted"); ("properties", Obj [])]))
    sample_streaming = sample_streaming.
Proof.
  refine (proj2 (unknown_type_dropped 0 "" _ sample_streaming _)).
  reflexivity.
Defined.

(** C5 as stated fails: nothing is passed on for such a frame. *)
Lemma unknown_type_is_not_forwarded :
  let event := Obj [("type", Str "session.compacted"); ("properties", Obj [])] in
  is_recognized (get "type" event) = false
  /\ snd (EventStream.handleEvent 0 event
            (EventStream.connect (EventStream.new "/demo"))) = None.
Proof. split; reflexivity. Qed.






(** C9: the request times out while the reply streams. *)
Lemma timeout_with_stream_is_ignored_witness :
  App.sendMessage_settled
    (App.rejected {| App.name := "Error";
                     App.message := "HTTP 504: Gateway Time-out" |})
    sample_streaming = sample_streaming.
Proof.
  refine (proj1 (timeout_with_stream_is_ignored _ sample_streaming _) _).
  - reflexivity.
  - eexists. reflexivity.
Defined.

End Examples.
